(** * Nexus dynamic Docker routing: discovery, registry and router

    A shallow embedding of [src/index.js]: the Docker event handler that
    fills the in-memory routing table [db], the Express middleware that
    routes plain HTTP requests by sub-domain, and the [upgrade] handler
    that routes WebSocket upgrades.

    Conventions.
    - A JavaScript string is a [string]; its characters are the code units
      below 256, which covers every name, address and port key Docker
      reports.
    - A JavaScript number is a double.  The numbers this program meets
      are [NaN], the two infinities and doubles whose value is an
      integer ([jsnum], the value as a [Z]): [parseInt] rounds what it
      reads to the nearest double, and a number is printed with the
      fewest digits that read back as the same double, in exponent form
      from 1e21.
    - The [Map] [db] is a [gmap string ServiceRecord]; it is threaded
      through every handler by a state-and-exception monad [M], so that
      "the handler did not touch the table" is a theorem and not a typing
      accident.
    - A handler that awaits ([container.inspect()]) touches [db] only
      after the await, in one uninterrupted run; one call of [on_data]
      below is that run, with the inspection answer supplied by the
      oracle [inspect]. *)

From Stdlib Require Import String Ascii List ZArith Lia Bool.
From stdpp Require Import base option gmap strings list fin_maps.
Import ListNotations.
Local Open Scope string_scope.
Local Open Scope Z_scope.

(* ===================================================================== *)
(** ** JavaScript string primitives used by the source *)
(* ===================================================================== *)

Module JsString.

(** [s.startsWith(c)] for a one-character pattern [c]. *)
Definition startsWith (c : ascii) (s : string) : bool :=
  match s with
  | String a _ => Ascii.eqb a c
  | EmptyString => false
  end.

(** [s.slice(1)]. *)
Definition slice1 (s : string) : string :=
  match s with
  | String _ rest => rest
  | EmptyString => EmptyString
  end.

(** [s.split(c)[0]]: everything before the first [c], the whole string
    when [c] does not occur. *)
Fixpoint split_head (c : ascii) (s : string) : string :=
  match s with
  | EmptyString => EmptyString
  | String a rest => if Ascii.eqb a c then EmptyString else String a (split_head c rest)
  end.

(** [s.endsWith(suffix)]: [suffix] sits at position
    [s.length - suffix.length] of [s]. *)
Fixpoint endsWith (suffix s : string) : bool :=
  if String.eqb s suffix then true
  else match s with
       | EmptyString => false
       | String _ rest => endsWith suffix rest
       end.

(** Truthiness of a string: only the empty string is falsy. *)
Definition truthy (s : string) : bool :=
  match s with EmptyString => false | _ => true end.

End JsString.

(* ===================================================================== *)
(** ** JavaScript numbers: [parseInt(s, 10)] and number-to-string *)
(* ===================================================================== *)

Module JsNumber.

(** The doubles [parseInt] can return: [NaN], an integer-valued double
    (its exact value; [-0] is [Num 0]) and plus or minus infinity
    ([Infinity true] is [-Infinity]). *)
Inductive jsnum : Type :=
| NaN : jsnum
| Num : Z -> jsnum
| Infinity : bool -> jsnum.

(** The Number value of the mathematical integer [z]: [z] itself up to
    53 bits, else the nearest value with a 53-bit mantissa, a tie going
    to the even mantissa; from 2^1024 on the result is infinite. *)
Definition to_double (z : Z) : jsnum :=
  let a := Z.abs z in
  if a <? 2 ^ 53 then Num z
  else
    let e := Z.log2 a - 52 in
    let q := a / 2 ^ e in
    let r := a mod 2 ^ e in
    let half := 2 ^ (e - 1) in
    let q' := if (half <? r) || ((r =? half) && Z.odd q) then q + 1 else q in
    let v := q' * 2 ^ e in
    if 2 ^ 1024 <=? v then Infinity (z <? 0) else Num (Z.sgn z * v).

(** ECMAScript [StrWhiteSpaceChar] among the code units below 256:
    TAB, LF, VT, FF, CR, SP and NBSP. *)
Definition is_whitespace (a : ascii) : bool :=
  let n := N_of_ascii a in
  ((9 <=? n) && (n <=? 13) || (n =? 32) || (n =? 160))%N.

Definition digit_value (a : ascii) : option Z :=
  let n := Z.of_N (N_of_ascii a) in
  if (48 <=? n) && (n <=? 57) then Some (n - 48) else None.

Fixpoint trim_start (s : string) : string :=
  match s with
  | String a rest => if is_whitespace a then trim_start rest else s
  | EmptyString => EmptyString
  end.

(** The longest run of decimal digits at the head of [s], read with
    accumulator [acc]; [seen] records whether a digit was consumed. *)
Fixpoint read_digits (s : string) (seen : bool) (acc : Z) : option Z :=
  match s with
  | String a rest =>
      match digit_value a with
      | Some d => read_digits rest true (10 * acc + d)
      | None => if seen then Some acc else None
      end
  | EmptyString => if seen then Some acc else None
  end.

(** [parseInt(s, 10)]: skip leading white space, take an optional sign,
    read the longest digit prefix and return its Number value; no digit
    gives [NaN]. *)
Definition parseInt10 (s : string) : jsnum :=
  let t := trim_start s in
  let '(sign, body) :=
    match t with
    | String "-" rest => (-1, rest)
    | String "+" rest => (1, rest)
    | _ => (1, t)
    end in
  match read_digits body false 0 with
  | Some n => to_double (sign * n)
  | None => NaN
  end.

(** [!x] for a number: [NaN], [+0] and [-0] are falsy. *)
Definition truthy (x : jsnum) : bool :=
  match x with
  | NaN => false
  | Num z => negb (z =? 0)
  | Infinity _ => true
  end.

Definition digit_char (d : Z) : ascii := ascii_of_N (Z.to_N (48 + d)).

(** Decimal digits of a positive number, most significant first, pushed
    in front of [acc]; [fuel] bounds the number of digits. *)
Fixpoint digits_go (fuel : nat) (n : Z) (acc : string) : string :=
  match fuel with
  | O => acc
  | S fuel' =>
      if n <? 10 then String (digit_char n) acc
      else digits_go fuel' (n / 10) (String (digit_char (n mod 10)) acc)
  end.

Definition digits_of (n : Z) : string :=
  digits_go (S (Z.to_nat (Z.log2 n))) n EmptyString.

(** The integer [c] reads back as the double [v] (a positive integer of
    more than 53 bits): it lies within half a gap of [v], the ends
    counting when the mantissa of [v] is even.  Compared four-fold, the
    gap below a power of two being half the gap above it. *)
Definition rounds_to (v c : Z) : bool :=
  let e := Z.log2 v - 52 in
  let m := v / 2 ^ e in
  let up := 2 ^ (e + 1) in
  let down := if m =? 2 ^ 52 then 2 ^ e else 2 ^ (e + 1) in
  if Z.even m
  then (4 * v - down <=? 4 * c) && (4 * c <=? 4 * v + up)
  else (4 * v - down <? 4 * c) && (4 * c <? 4 * v + up).

(** The multiple of the largest power of ten [p] that reads back as [v],
    the nearer of the two around [v] (the even one on a tie). *)
Fixpoint shortest_go (fuel : nat) (v p : Z) : Z :=
  match fuel with
  | O => v
  | S fuel' =>
      let lo := (v / p) * p in
      let hi := lo + p in
      let lo_ok := rounds_to v lo in
      let hi_ok := rounds_to v hi in
      if lo_ok && hi_ok then
        if v - lo <? hi - v then lo
        else if hi - v <? v - lo then hi
        else if Z.even (lo / p) then lo else hi
      else if lo_ok then lo
      else if hi_ok then hi
      else shortest_go fuel' v (p / 10)
  end.

(** The integer with the fewest significant digits that reads back as
    the double [v]. *)
Definition shortest (v : Z) : Z :=
  let n := String.length (digits_of v) in
  shortest_go n v (10 ^ (Z.of_nat n - 1)).

Fixpoint strip_zeros (s : list ascii) : list ascii :=
  match s with
  | "0"%char :: rest => strip_zeros rest
  | _ => s
  end.

Definition strip_trailing_zeros (s : string) : string :=
  string_of_list_ascii (rev (strip_zeros (rev (list_ascii_of_string s)))).

(** [d.ddde+N]. *)
Definition exponent_form (c : Z) : string :=
  let ds := digits_of c in
  let e := digits_of (Z.of_nat (String.length ds) - 1) in
  match strip_trailing_zeros ds with
  | String d EmptyString => String d ("e+" ++ e)
  | String d rest => String d ("." ++ rest ++ "e+" ++ e)
  | EmptyString => EmptyString
  end.

(** Number-to-string of a positive integer-valued double: all its digits
    up to 53 bits; beyond, the shortest digits that read back as it,
    padded with zeros below 1e21 and in exponent form from there. *)
Definition magnitude_toString (v : Z) : string :=
  if v <? 2 ^ 53 then digits_of v
  else
    let c := shortest v in
    if c <? 10 ^ 21 then digits_of c else exponent_form c.

(** [String(x)] / [`${x}`]. *)
Definition toString (x : jsnum) : string :=
  match x with
  | NaN => "NaN"
  | Infinity negative => if negative then "-Infinity" else "Infinity"
  | Num n =>
      if n <? 0 then String "-" (magnitude_toString (- n)) else magnitude_toString n
  end.

End JsNumber.

(* ===================================================================== *)
(** ** Data model *)
(* ===================================================================== *)

(** The object literal stored by [db.set]:
    [{ containerName, ipAddress, defaultPort, target }]. *)
Record ServiceRecord : Type := mkRecord {
  containerName : string;
  ipAddress : string;
  defaultPort : JsNumber.jsnum;
  target : string
}.

(** [const db = new Map()]. *)
Abbreviation registry := (gmap string ServiceRecord).

(** One value of [NetworkSettings.Networks]. *)
Record EndpointSettings : Type := mkEndpoint {
  IPAddress : string
}.

(** What [container.inspect()] resolves to, restricted to the fields the
    handler reads.  [Networks] and [ExposedPorts] may be missing or
    [null] (the source guards both).  [Networks] lists the properties of
    the object in the order [Object.values] enumerates them.
    [ExposedPorts] lists the keys of the object in the order
    [Object.keys] enumerates them (for keys such as ["8080/tcp"], which
    are not array indices, that is the order in which the metadata
    declares them); Docker reports every declared port as [key: {}], an
    empty object, hence a truthy value, so [exposedPorts[k]] is truthy
    exactly when [k] is one of the keys. *)
Record ContainerInfo : Type := mkInfo {
  Name : string;
  Networks : option (list (string * EndpointSettings));
  ExposedPorts : option (list string)
}.

(** [event.Actor]. *)
Record Actor : Type := mkActor {
  ID : option string
}.

(** A parsed event; a field that is absent reads as [undefined]. *)
Record RuntimeEvent : Type := mkEvent {
  ev_Type : option string;
  ev_Action : option string;
  ev_Actor : option Actor
}.

(** What the stream delivers to the ['data'] listener, by the way
    [JSON.parse(chunk.toString())] treats it. *)
Inductive chunk : Type :=
| ChunkFalsy                       (* [!chunk] holds *)
| ChunkMalformed                   (* [JSON.parse] throws a SyntaxError *)
| ChunkNull                        (* the text is [null] *)
| ChunkEvent (event : RuntimeEvent).

Inductive exn : Type :=
| SyntaxError
| TypeError
| InspectError.

Inductive result (A : Type) : Type :=
| Ok (a : A)
| Throw (e : exn).
Arguments Ok {A} a.
Arguments Throw {A} e.

(* ===================================================================== *)
(** ** The handler monad: the table [db] plus exceptions *)
(* ===================================================================== *)

Definition M (A : Type) : Type := registry -> result A * registry.

Definition ret {A} (a : A) : M A := fun db => (Ok a, db).

Definition throw {A} (e : exn) : M A := fun db => (Throw e, db).

Definition bind {A B} (m : M A) (k : A -> M B) : M B :=
  fun db =>
    match m db with
    | (Ok a, db') => k a db'
    | (Throw e, db') => (Throw e, db')
    end.

(** [try { body } catch (e) { handler }]: the table keeps whatever the
    body did before it threw. *)
Definition try_catch {A} (body : M A) (handler : exn -> M A) : M A :=
  fun db =>
    match body db with
    | (Ok a, db') => (Ok a, db')
    | (Throw e, db') => handler e db'
    end.

Definition lift {A} (r : result A) : M A := fun db => (r, db).

(** [db.set(k, v)], [db.has(k)], [db.get(k)]. *)
Definition db_set (k : string) (v : ServiceRecord) : M unit :=
  fun db => (Ok tt, <[k := v]> db).

Definition db_has (k : string) : M bool :=
  fun db => (Ok (bool_decide (is_Some (db !! k))), db).

Definition db_get (k : string) : M (option ServiceRecord) :=
  fun db => (Ok (db !! k), db).

(** [[...db.entries()]]: the entries of the table, as a mapping (the
    order in which the console shows them is not recorded). *)
Definition db_entries : M registry :=
  fun db => (Ok db, db).

Notation "'let*' x ':=' m 'in' k" := (bind m (fun x => k))
  (at level 10, x name, m at level 200, k at level 200).

(* ===================================================================== *)
(** ** Discovery: the ['data'] listener of [docker.getEvents] *)
(* ===================================================================== *)

(** Which [console] line ends the handler. *)
Inductive discovery_outcome : Type :=
| Ignored                                   (* nothing logged *)
| WarnNoContainerId                         (* "Container ID is undefined" *)
| ErrNoIp (name : string)                   (* "Could not determine IP address" *)
| ErrNoPort (name : string)                 (* "No default TCP port found" *)
| Registered (r : ServiceRecord)            (* "Registering container ..." *)
| ErrInspect (containerId : string) (e : exn)  (* "Error inspecting container" *)
| ErrParse (e : exn).                       (* "Error parsing event data" *)

(** Line 48: strip one leading ['/']. *)
Definition derive_containerName (info : ContainerInfo) : string :=
  if JsString.startsWith "/" (Name info) then JsString.slice1 (Name info)
  else Name info.

(** Lines 50-58: [ipAddress] starts as [null] and is set from the first
    network when that one carries a truthy [IPAddress]. *)
Definition select_ipAddress (info : ContainerInfo) : option string :=
  match Networks info with
  | Some networks =>
      match head (map snd networks) with
      | Some firstNetwork =>
          if JsString.truthy (IPAddress firstNetwork)
          then Some (IPAddress firstNetwork)
          else None
      | None => None
      end
  | None => None
  end.

(** [exposedPorts[k]] is truthy. *)
Definition declares (exposedPorts : list string) (k : string) : bool :=
  existsb (String.eqb k) exposedPorts.

(** Lines 66-78: [defaultPort] starts as [null]. *)
Definition select_defaultPort (info : ContainerInfo) : option JsNumber.jsnum :=
  let exposedPorts := default [] (ExposedPorts info) in
  if declares exposedPorts "80/tcp" then Some (JsNumber.Num 80)
  else
    match find (JsString.endsWith "/tcp") exposedPorts with
    | Some portKey =>
        Some (JsNumber.parseInt10 (JsString.split_head "/" portKey))
    | None => None
    end.

(** Line 85: [`http://${ipAddress}:${defaultPort}`]. *)
Definition make_target (ip : string) (port : JsNumber.jsnum) : string :=
  "http://" ++ ip ++ ":" ++ JsNumber.toString port.

(** Lines 46-92, the code after [await container.inspect()].  The
    table is written once (line 89) and then read once for the debug
    dump of line 92, which goes to the console only. *)
Definition register_container (containerInfo : ContainerInfo) : M discovery_outcome :=
  let containerName := derive_containerName containerInfo in
  match select_ipAddress containerInfo with
  | None => ret (ErrNoIp containerName)
  | Some ipAddress =>
      match select_defaultPort containerInfo with
      | Some defaultPort =>
          if JsNumber.truthy defaultPort then
            let r := mkRecord containerName ipAddress defaultPort
                              (make_target ipAddress defaultPort) in
            let* _u := db_set containerName r in
            let* _mappings := db_entries in
            ret (Registered r)
          else ret (ErrNoPort containerName)
      | None => ret (ErrNoPort containerName)
      end
  end.

(** Lines 43-95: the inner [try]/[catch] around inspection. *)
Definition inspect_and_register
    (inspect : string -> result ContainerInfo) (containerId : string)
  : M discovery_outcome :=
  try_catch
    (let* containerInfo := lift (inspect containerId) in
     register_container containerInfo)
    (fun inspectErr => ret (ErrInspect containerId inspectErr)).

(** [JSON.parse(chunk.toString())] followed by the first property read:
    reading a property of [null] throws. *)
Definition parse_event (c : chunk) : M RuntimeEvent :=
  match c with
  | ChunkEvent event => ret event
  | ChunkNull => throw TypeError
  | ChunkMalformed | ChunkFalsy => throw SyntaxError
  end.

(** Lines 31-96, the body of the outer [try]. *)
Definition handle_event
    (inspect : string -> result ContainerInfo) (c : chunk)
  : M discovery_outcome :=
  let* event := parse_event c in
  if bool_decide (ev_Type event = Some "container")
     && bool_decide (ev_Action event = Some "start")
  then
    match ev_Actor event with
    | None => throw TypeError            (* [event.Actor.ID] of [undefined] *)
    | Some actor =>
        match ID actor with
        | None => ret WarnNoContainerId
        | Some containerId =>
            if JsString.truthy containerId
            then inspect_and_register inspect containerId
            else ret WarnNoContainerId
        end
    end
  else ret Ignored.

(** Lines 27-100: the listener.  Its [result] is how the promise of the
    [async] function settles; [Throw] would be an unhandled rejection. *)
Definition on_data
    (inspect : string -> result ContainerInfo) (c : chunk)
  : M discovery_outcome :=
  match c with
  | ChunkFalsy => ret Ignored
  | _ =>
      try_catch (handle_event inspect c)
                (fun parseError => ret (ErrParse parseError))
  end.

(* ===================================================================== *)
(** ** Router: the Express middleware and the [upgrade] listener *)
(* ===================================================================== *)

(** What the listener writes as a response body: [res.json(obj)] sends
    the object [obj] (here always a flat object of strings, fields in
    source order), [res.send(text)] and [res.end(text)] send [text]. *)
Inductive http_body : Type :=
| JsonBody (fields : list (string * string))
| TextBody (text : string).

(** [content_type] is the media type of the [Content-Type] header
    (Express adds a charset parameter to it). *)
Record http_response : Type := mkResponse {
  status : Z;
  content_type : string;
  body : http_body
}.

(** [res.status(code).json(obj)]. *)
Definition res_json (code : Z) (obj : list (string * string)) : http_response :=
  mkResponse code "application/json" (JsonBody obj).

(** [res.status(code).send(text)]: Express labels a string as HTML. *)
Definition res_send (code : Z) (text : string) : http_response :=
  mkResponse code "text/html" (TextBody text).

(** How [proxy.web] ends: the backend answered and its response was piped
    to the client, or the error callback ran. *)
Inductive proxy_web_result : Type :=
| BackendReplied (resp : http_response)
| BackendFailed (message : string).

(** One request through the middleware: whether [proxy.web] was called,
    on which target, and the response the client gets. *)
Record http_exchange : Type := mkExchange {
  forwarded_to : option string;
  response : http_response
}.

(** Lines 106-136.  [hostname] is [req.hostname], [undefined] when the
    request has no host header; [proxy_web] is the backend behind
    [proxy.web(req, res, { target }, callback)]. *)
Definition reverseProxyApp
    (proxy_web : string -> proxy_web_result) (hostname : option string)
  : M http_exchange :=
  match hostname with
  | None => throw TypeError               (* [hostname.split] of [undefined] *)
  | Some hostname =>
      let subdomain := JsString.split_head "." hostname in
      let* known := db_has subdomain in
      if negb known then
        ret (mkExchange None
               (res_json 404 [("status", "error"); ("message", "Container not found")]))
      else
        let* entry := db_get subdomain in
        match entry with
        | None => throw TypeError         (* destructuring [undefined] *)
        | Some r =>
            if negb (JsString.truthy (target r)) then
              ret (mkExchange None
                     (res_json 500 [("status", "error");
                                    ("message", "Invalid target configuration")]))
            else
              match proxy_web (target r) with
              | BackendReplied resp => ret (mkExchange (Some (target r)) resp)
              | BackendFailed _ =>
                  ret (mkExchange (Some (target r)) (res_send 502 "Bad gateway."))
              end
        end
  end.

(** Lines 12-18, the proxy-wide ['error'] listener: the status line and
    content type are written unless headers already went out, then the
    body is ended with the same text. *)
Definition proxy_on_error (headersSent : bool) : option (Z * string) * http_body :=
  ((if negb headersSent then Some (502, "text/plain") else None),
   TextBody "Bad gateway.").

Definition CRLF : string := String (ascii_of_nat 13) (String (ascii_of_nat 10) EmptyString).

(** The raw lines of the [upgrade] listener, e.g.
    ['HTTP/1.1 400 Bad Request\r\n\r\n']. *)
Definition status_line (code reason : string) : string :=
  "HTTP/1.1 " ++ code ++ " " ++ reason ++ CRLF ++ CRLF.

(** How [proxy.ws] ends: the socket was tunnelled to the backend, or the
    error callback ran. *)
Inductive proxy_ws_result : Type :=
| WsTunnelled
| WsFailed (message : string).

(** One upgrade through the listener: whether [proxy.ws] was called, on
    which target, and what [socket.end] wrote, if it was called. *)
Record upgrade_exchange : Type := mkUpgrade {
  upgraded_to : option string;
  socket_end : option string
}.

(** Lines 142-174.  [host] is [req.headers.host]; [!hostname] holds when
    the header is missing or empty. *)
Definition on_upgrade
    (proxy_ws : string -> proxy_ws_result) (host : option string)
  : M upgrade_exchange :=
  match host with
  | None | Some EmptyString =>
      ret (mkUpgrade None (Some (status_line "400" "Bad Request")))
  | Some hostname =>
      let subdomain := JsString.split_head "." hostname in
      let* known := db_has subdomain in
      if negb known then
        ret (mkUpgrade None (Some (status_line "404" "Not Found")))
      else
        let* entry := db_get subdomain in
        match entry with
        | None => throw TypeError         (* destructuring [undefined] *)
        | Some r =>
            if negb (JsString.truthy (target r)) then
              ret (mkUpgrade None (Some (status_line "502" "Bad Gateway")))
            else
              match proxy_ws (target r) with
              | WsTunnelled => ret (mkUpgrade (Some (target r)) None)
              | WsFailed _ =>
                  ret (mkUpgrade (Some (target r))
                                 (Some (status_line "502" "Bad Gateway")))
              end
        end
  end.

(* ===================================================================== *)
(** ** The core as a transition system over the table *)
(* ===================================================================== *)

(** Everything that can run against [db]: a chunk of the event stream
    (with the inspection answers of that moment), an HTTP request, a
    WebSocket upgrade. *)
Inductive core_input : Type :=
| DockerData (inspect : string -> result ContainerInfo) (c : chunk)
| HttpRequest (proxy_web : string -> proxy_web_result) (hostname : option string)
| UpgradeRequest (proxy_ws : string -> proxy_ws_result) (host : option string).

(** The table after one input. *)
Definition step (i : core_input) (db : registry) : registry :=
  match i with
  | DockerData inspect c => snd (on_data inspect c db)
  | HttpRequest proxy_web hostname => snd (reverseProxyApp proxy_web hostname db)
  | UpgradeRequest proxy_ws host => snd (on_upgrade proxy_ws host db)
  end.

(** The table after a sequence of inputs, oldest first. *)
Definition run (inputs : list core_input) (db : registry) : registry :=
  fold_left (fun acc i => step i acc) inputs db.

(** Tables that discovery alone can build from the empty [Map]. *)
Inductive discovered : registry -> Prop :=
| discovered_empty : discovered ∅
| discovered_data inspect c db :
    discovered db -> discovered (snd (on_data inspect c db)).

(** The scenario of the specification: container [c1], reported as
    [/web1] on 10.0.0.5 with ports 80 and 8080. *)
Definition web1_info : ContainerInfo :=
  mkInfo "/web1"
         (Some [("bridge", mkEndpoint "10.0.0.5")])
         (Some ["80/tcp"; "8080/tcp"]).

Definition start_event (id : string) : chunk :=
  ChunkEvent (mkEvent (Some "container") (Some "start") (Some (mkActor (Some id)))).

Definition inspect_web1 (id : string) : result ContainerInfo :=
  if String.eqb id "c1" then Ok web1_info else Throw InspectError.

Definition web1_record : ServiceRecord :=
  mkRecord "web1" "10.0.0.5" (JsNumber.Num 80) "http://10.0.0.5:80".

(* ===================================================================== *)
(** ** Predicates and sample inputs used by the statements *)
(* ===================================================================== *)

(** The key Docker writes for TCP port [n]. *)
Definition tcp_key (n : Z) : string := JsNumber.toString (JsNumber.Num n) ++ "/tcp".

(** A record as [register_container] builds it from [info]. *)
Definition built_from (info : ContainerInfo) (r : ServiceRecord) : Prop :=
  containerName r = derive_containerName info
  /\ select_ipAddress info = Some (ipAddress r)
  /\ select_defaultPort info = Some (defaultPort r)
  /\ JsNumber.truthy (defaultPort r) = true
  /\ target r = make_target (ipAddress r) (defaultPort r).

(** The first network carries no usable address (or there is none). *)
Definition no_first_address (info : ContainerInfo) : Prop :=
  match Networks info with
  | Some ((_, firstNetwork) :: _) => IPAddress firstNetwork = ""
  | Some [] | None => True
  end.

(** A chunk that is a container-start event naming container [id]. *)
Definition is_start_for (c : chunk) (id : string) : Prop :=
  exists event actor,
    c = ChunkEvent event
    /\ ev_Type event = Some "container"
    /\ ev_Action event = Some "start"
    /\ ev_Actor event = Some actor
    /\ ID actor = Some id
    /\ id <> "".

(** Some attached network carries an address. *)
Definition carries_address (info : ContainerInfo) : Prop :=
  exists networks net e,
    Networks info = Some networks /\ In (net, e) networks /\ IPAddress e <> "".

(** A container on two networks, the first one without an address. *)
Definition two_networks_info : ContainerInfo :=
  mkInfo "/web1"
         (Some [("host", mkEndpoint ""); ("bridge", mkEndpoint "10.0.0.5")])
         (Some ["80/tcp"]).

(** A body of the shape [{status: "error", message: <string>}]. *)
Definition is_error_json (b : http_body) : Prop :=
  exists message, b = JsonBody [("status", "error"); ("message", message)].

(** A backend that refuses the connection. *)
Definition refused_backend (_ : string) : proxy_web_result :=
  BackendFailed "connect ECONNREFUSED".

(** The chunk parses to an event of type [container] and action [start]. *)
Definition is_container_start (c : chunk) : Prop :=
  exists event,
    c = ChunkEvent event
    /\ ev_Type event = Some "container"
    /\ ev_Action event = Some "start".

(** No port survives [!defaultPort]: nothing selected, [NaN], or zero. *)
Definition no_usable_port (info : ContainerInfo) : Prop :=
  forall port, select_defaultPort info = Some port -> JsNumber.truthy port = false.

(** The same container name restarted on another address and port. *)
Definition web1_info_restarted : ContainerInfo :=
  mkInfo "/web1" (Some [("bridge", mkEndpoint "10.0.0.9")]) (Some ["3000/tcp"]).

Definition web1_record_restarted : ServiceRecord :=
  mkRecord "web1" "10.0.0.9" (JsNumber.Num 3000) "http://10.0.0.9:3000".

(** The character [c] occurs in [s]. *)
Fixpoint has_char (c : ascii) (s : string) : bool :=
  match s with
  | EmptyString => false
  | String a rest => Ascii.eqb a c || has_char c rest
  end.

(** A backend that refuses the tunnel. *)
Definition refused_tunnel (_ : string) : proxy_ws_result :=
  WsFailed "connect ECONNREFUSED".

(** The target is ["http://" + ipAddress + ":" + defaultPort] and is not
    the empty string. *)
Definition well_targeted (r : ServiceRecord) : Prop :=
  target r = "http://" ++ ipAddress r ++ ":" ++ JsNumber.toString (defaultPort r)
  /\ target r <> "".

(* ===================================================================== *)
(** ** Management API: [POST /container] *)
(* ===================================================================== *)

(** One element of [docker.listImages()]; [RepoTags] may be [null]. *)
Record SystemImage : Type := mkImage {
  RepoTags : option (list string)
}.

(** [req.body] as [express.json()] leaves it; a missing field reads as
    [undefined]. *)
Record ContainerRequest : Type := mkRequest {
  image : option string;
  tag : option string
}.

(** The argument of [docker.createContainer]:
    [{ Image, Tty, HostConfig: { AutoRemove } }]. *)
Record CreateOptions : Type := mkCreate {
  Image : string;
  Tty : bool;
  AutoRemove : bool
}.

(** The calls the handler makes on the Docker daemon, in the order it
    makes them. *)
Inductive docker_call : Type :=
| ListImages
| Pull (ref : string)
| FollowProgress (ref : string)
| CreateContainer (opts : CreateOptions)
| Start (containerId : string)
| Inspect (containerId : string).

(** The daemon as the handler meets it: what each call answers.
    [docker_pull] is the first callback of [docker.pull] (its [pullErr]),
    [modem_followProgress] the callback of [docker.modem.followProgress]
    on the stream of that pull; [docker_createContainer] gives the new
    container, named by its id. *)
Record DockerApi : Type := mkDocker {
  docker_listImages : result (list SystemImage);
  docker_pull : string -> result unit;
  modem_followProgress : string -> result unit;
  docker_createContainer : CreateOptions -> result string;
  container_start : string -> result unit;
  container_inspect : string -> result ContainerInfo
}.

(** A computation of the handler: its result and the calls it made. *)
Definition D (A : Type) : Type := result A * list docker_call.

Definition dret {A} (a : A) : D A := (Ok a, []).

Definition dbind {A B} (m : D A) (k : A -> D B) : D B :=
  match m with
  | (Ok a, calls) => let '(r, calls') := k a in (r, (calls ++ calls')%list)
  | (Throw e, calls) => (Throw e, calls)
  end.

(** [await] on a call of the daemon: a rejection is thrown. *)
Definition call {A} (c : docker_call) (answer : result A) : D A := (answer, [c]).

Definition dcatch {A} (body : D A) (handler : exn -> D A) : D A :=
  match body with
  | (Ok a, calls) => (Ok a, calls)
  | (Throw e, calls) => let '(r, calls') := handler e in (r, (calls ++ calls')%list)
  end.

Notation "'let+' x ':=' m 'in' k" := (dbind m (fun x => k))
  (at level 10, x name, m at level 200, k at level 200).

(** [`${x}`] for a value that is a string or [undefined]. *)
Definition template (x : option string) : string := default "undefined" x.

(** [`${image}:${tag}`]. *)
Definition image_ref (b : ContainerRequest) : string :=
  template (image b) ++ ":" ++ template (tag b).

(** Lines 196-201, the inner loop: stop at the first tag equal to [ref]. *)
Fixpoint scan_tags (ref : string) (tags : list string) : bool :=
  match tags with
  | [] => false
  | systemTag :: rest =>
      if String.eqb systemTag ref then true else scan_tags ref rest
  end.

(** Lines 194-203, the outer loop: images without [RepoTags] are skipped,
    the loop stops at the first image that carries [ref]. *)
Fixpoint scan_images (ref : string) (images : list SystemImage) : bool :=
  match images with
  | [] => false
  | systemImage :: rest =>
      match RepoTags systemImage with
      | None => scan_images ref rest
      | Some tags => if scan_tags ref tags then true else scan_images ref rest
      end
  end.

(** Lines 205-223: pull the image unless it is already there. *)
Definition ensure_image (docker : DockerApi) (ref : string) (imageAlreadyExists : bool)
  : D unit :=
  if negb imageAlreadyExists then
    let+ _stream := call (Pull ref) (docker_pull docker ref) in
    call (FollowProgress ref) (modem_followProgress docker ref)
  else dret tt.

(** Lines 187-251.  [body] is [req.body]; it is destructured before the
    [try], so a missing body is thrown out of the handler. *)
Definition post_container (docker : DockerApi) (body : option ContainerRequest)
  : D http_response :=
  match body with
  | None => (Throw TypeError, [])
  | Some b =>
      let ref := image_ref b in
      dcatch
        (let+ images := call ListImages (docker_listImages docker) in
         let imageAlreadyExists := scan_images ref images in
         let+ _pulled := ensure_image docker ref imageAlreadyExists in
         let+ container :=
           call (CreateContainer (mkCreate ref false true))
                (docker_createContainer docker (mkCreate ref false true)) in
         let+ _started := call (Start container) (container_start docker container) in
         let+ containerInfo :=
           call (Inspect container) (container_inspect docker container) in
         let containerName := derive_containerName containerInfo in
         let target := containerName ++ ".localhost" in
         dret (res_json 200 [("status", "success");
                             ("message", "Container started");
                             ("container", target)]))
        (fun err =>
           dret (res_json 500 [("status", "error");
                               ("message", "Error starting container")]))
  end.

(* ===================================================================== *)
(** ** Further predicates and sample inputs *)
(* ===================================================================== *)

(** The table after an event whose listener ended with [o]. *)
Definition table_after (o : discovery_outcome) (db : registry) : registry :=
  match o with
  | Registered r => <[containerName r := r]> db
  | _ => db
  end.

(** The inputs that come from the Docker event stream. *)
Definition is_docker_data (i : core_input) : bool :=
  match i with
  | DockerData _ _ => true
  | _ => false
  end.

(** The success answer of the management API for service [name]. *)
Definition started_response (name : string) : http_response :=
  res_json 200 [("status", "success");
                ("message", "Container started");
                ("container", name ++ ".localhost")].

(** The failure answer of the management API. *)
Definition start_failed_response : http_response :=
  res_json 500 [("status", "error"); ("message", "Error starting container")].

(** The image [ref] is listed by an image that has tags. *)
Definition image_listed (ref : string) (images : list SystemImage) : Prop :=
  exists systemImage tags,
    In systemImage images /\ RepoTags systemImage = Some tags /\ In ref tags.

(** A promise that resolved. *)
Definition succeeded {A} (r : result A) : bool :=
  match r with
  | Ok _ => true
  | Throw _ => false
  end.

(** The daemon answered the call without an error. *)
Definition call_ok (docker : DockerApi) (c : docker_call) : bool :=
  match c with
  | ListImages => succeeded (docker_listImages docker)
  | Pull ref => succeeded (docker_pull docker ref)
  | FollowProgress ref => succeeded (modem_followProgress docker ref)
  | CreateContainer opts => succeeded (docker_createContainer docker opts)
  | Start containerId => succeeded (container_start docker containerId)
  | Inspect containerId => succeeded (container_inspect docker containerId)
  end.

(** A daemon that holds [nginx:latest] and starts container [c1] of the
    scenario. *)
Definition sample_docker : DockerApi :=
  mkDocker (Ok [mkImage None; mkImage (Some ["redis:7"; "nginx:latest"])])
           (fun _ => Throw InspectError)
           (fun _ => Throw InspectError)
           (fun _ => Ok "c1")
           (fun _ => Ok tt)
           inspect_web1.

(** The same daemon without any image, whose registry refuses the pull. *)
Definition offline_docker : DockerApi :=
  mkDocker (Ok [])
           (fun _ => Throw InspectError)
           (fun _ => Ok tt)
           (fun _ => Ok "c1")
           (fun _ => Ok tt)
           inspect_web1.

Definition nginx_request : ContainerRequest :=
  mkRequest (Some "nginx") (Some "latest").

(** A container whose name carries a dot. *)
Definition dotted_info : ContainerInfo :=
  mkInfo "/shop.api" (Some [("bridge", mkEndpoint "10.0.0.7")]) (Some ["8080/tcp"]).

(** A container whose only TCP key is port 0. *)
Definition port_zero_info : ContainerInfo :=
  mkInfo "/web1" (Some [("bridge", mkEndpoint "10.0.0.5")]) (Some ["0/tcp"]).

(** A container whose first TCP key has no usable number. *)
Definition zero_port_info : ContainerInfo :=
  mkInfo "/web1" (Some [("bridge", mkEndpoint "10.0.0.5")])
         (Some ["53/udp"; "0/tcp"; "8080/tcp"]).

(* ===================================================================== *)
(** ** Facts about the string and number primitives *)
(* ===================================================================== *)

Example parseInt_8080 : JsNumber.parseInt10 "8080" = JsNumber.Num 8080.
Proof. reflexivity. Qed.

Example parseInt_junk : JsNumber.parseInt10 "http" = JsNumber.NaN.
Proof. reflexivity. Qed.

Example parseInt_prefix : JsNumber.parseInt10 " 12ab" = JsNumber.Num 12.
Proof. reflexivity. Qed.

Example toString_3000 : JsNumber.toString (JsNumber.Num 3000) = "3000".
Proof. reflexivity. Qed.

Example toString_neg : JsNumber.toString (JsNumber.Num (-5)) = "-5".
Proof. reflexivity. Qed.

Example toString_0 : JsNumber.toString (JsNumber.Num 0) = "0".
Proof. reflexivity. Qed.

(** Beyond 53 bits [parseInt] rounds, and printing follows the double. *)
Example parseInt_rounds :
  JsNumber.parseInt10 "9007199254740993" = JsNumber.Num 9007199254740992.
Proof. vm_compute. reflexivity. Qed.

Example toString_2_60 :
  JsNumber.toString (JsNumber.Num (2 ^ 60)) = "1152921504606847000".
Proof. vm_compute. reflexivity. Qed.

Example toString_1e21 :
  JsNumber.toString (JsNumber.parseInt10 "1000000000000000000000") = "1e+21".
Proof. vm_compute. reflexivity. Qed.

Example toString_exponent :
  JsNumber.toString (JsNumber.parseInt10 "123456789012345678901234567890")
  = "1.2345678901234568e+29".
Proof. vm_compute. reflexivity. Qed.

Example split_head_host : JsString.split_head "." "web1.localhost" = "web1".
Proof. reflexivity. Qed.

Example endsWith_tcp : JsString.endsWith "/tcp" "8080/tcp" = true.
Proof. reflexivity. Qed.

Example endsWith_udp : JsString.endsWith "/tcp" "53/udp" = false.
Proof. reflexivity. Qed.

Example web1_registered :
  on_data inspect_web1 (start_event "c1") ∅
  = (Ok (Registered web1_record), {[ "web1" := web1_record ]}).
Proof. vm_compute. reflexivity. Qed.

Section StringFacts.

Lemma endsWith_refl (suffix : string) : JsString.endsWith suffix suffix = true.
Proof. destruct suffix; simpl; [reflexivity|]. by rewrite Ascii.eqb_refl, String.eqb_refl. Qed.

Lemma endsWith_app (s suffix : string) :
  JsString.endsWith suffix (s ++ suffix) = true.
Proof.
  induction s as [|a s IH]; simpl.
  - apply endsWith_refl.
  - change (JsString.endsWith suffix (String a s ++ suffix))
      with (if String.eqb (String a (s ++ suffix)) suffix then true
            else JsString.endsWith suffix (s ++ suffix)).
    rewrite IH. by case_match.
Qed.

(** A label without the separator is what [split(c)[0]] returns. *)
Lemma split_head_app (c : ascii) (label rest : string) :
  JsString.split_head c label = label ->
  JsString.split_head c (label ++ String c rest) = label.
Proof.
  induction label as [|a label IH]; simpl.
  - by rewrite Ascii.eqb_refl.
  - destruct (Ascii.eqb a c); [discriminate|].
    intros [= H]. by rewrite (IH H).
Qed.

Lemma truthy_app_l (s t : string) :
  JsString.truthy s = true -> JsString.truthy (s ++ t) = true.
Proof. by destruct s. Qed.

Lemma truthy_nonempty (s : string) : JsString.truthy s = true <-> s <> "".
Proof. destruct s; simpl; split; congruence. Qed.

End StringFacts.

Section NumberFacts.
Import JsNumber.

Lemma digit_value_char (d : Z) :
  0 <= d < 10 -> digit_value (digit_char d) = Some d.
Proof.
  intros Hd.
  assert (d = 0 \/ d = 1 \/ d = 2 \/ d = 3 \/ d = 4 \/ d = 5 \/ d = 6
          \/ d = 7 \/ d = 8 \/ d = 9) as Hcases by lia.
  repeat (destruct Hcases as [-> | Hcases]; [reflexivity|]).
  by subst.
Qed.

Lemma digit_char_not_slash (d : Z) :
  0 <= d < 10 -> Ascii.eqb (digit_char d) "/" = false.
Proof.
  intros Hd.
  assert (d = 0 \/ d = 1 \/ d = 2 \/ d = 3 \/ d = 4 \/ d = 5 \/ d = 6
          \/ d = 7 \/ d = 8 \/ d = 9) as Hcases by lia.
  repeat (destruct Hcases as [-> | Hcases]; [reflexivity|]).
  by subst.
Qed.

(** Reading back the digits that [digits_go] wrote gives the number. *)
Lemma read_digits_go (fuel : nat) : forall (n : Z) (rest : string) (seen : bool),
  0 <= n < 2 ^ Z.of_nat (S fuel) ->
  read_digits (digits_go (S fuel) n rest) seen 0 = read_digits rest true n.
Proof.
  induction fuel as [|fuel IH]; intros n rest seen Hn.
  - assert (n < 10) as Hlt by (change (2 ^ Z.of_nat 1) with 2 in Hn; lia).
    simpl. apply Z.ltb_lt in Hlt as ->. simpl.
    rewrite digit_value_char by lia. f_equal; lia.
  - change (digits_go (S (S fuel)) n rest)
      with (if n <? 10 then String (digit_char n) rest
            else digits_go (S fuel) (n / 10) (String (digit_char (n mod 10)) rest)).
    destruct (Z.ltb_spec n 10) as [Hlt|Hge].
    + simpl. rewrite digit_value_char by lia. f_equal; lia.
    + rewrite IH.
      * simpl. rewrite digit_value_char by (apply Z.mod_pos_bound; lia).
        f_equal; pose proof (Z.div_mod n 10); lia.
      * rewrite Nat2Z.inj_succ, Z.pow_succ_r in Hn by lia.
        split; [apply Z.div_pos; lia|].
        apply Z.div_lt_upper_bound; lia.
Qed.

Lemma split_head_digits_go (fuel : nat) : forall (n : Z) (rest : string),
  0 <= n ->
  JsString.split_head "/" (digits_go fuel n rest)
  = digits_go fuel n (JsString.split_head "/" rest).
Proof.
  induction fuel as [|fuel IH]; intros n rest Hn; [reflexivity|].
  simpl. destruct (Z.ltb_spec n 10) as [Hlt|Hge].
  - simpl. by rewrite digit_char_not_slash by lia.
  - rewrite IH by (apply Z.div_pos; lia). simpl.
    by rewrite digit_char_not_slash by (apply Z.mod_pos_bound; lia).
Qed.

Lemma digits_go_app (fuel : nat) : forall (n : Z) (rest tail : string),
  (digits_go fuel n rest ++ tail)%string = digits_go fuel n (rest ++ tail).
Proof.
  induction fuel as [|fuel IH]; intros n rest tail; [reflexivity|].
  simpl. destruct (n <? 10); [reflexivity|]. by rewrite IH.
Qed.

Lemma digits_of_fuel (n : Z) : 0 < n -> n < 2 ^ Z.of_nat (S (Z.to_nat (Z.log2 n))).
Proof.
  intros Hn. rewrite Nat2Z.inj_succ, Z2Nat.id by apply Z.log2_nonneg.
  apply Z.log2_spec. lia.
Qed.

(** The first character of a positive number's digits is a digit, so
    [parseInt] neither trims it nor reads it as a sign. *)
Lemma digits_go_head (fuel : nat) : forall (n : Z) (rest : string),
  0 <= n ->
  exists d tail, digits_go (S fuel) n rest = String (digit_char d) tail /\ 0 <= d < 10.
Proof.
  induction fuel as [|fuel IH]; intros n rest Hn.
  - simpl. destruct (Z.ltb_spec n 10); eauto with lia.
    exists (n mod 10), rest. split; [reflexivity|]. apply Z.mod_pos_bound; lia.
  - change (digits_go (S (S fuel)) n rest)
      with (if n <? 10 then String (digit_char n) rest
            else digits_go (S fuel) (n / 10) (String (digit_char (n mod 10)) rest)).
    destruct (Z.ltb_spec n 10); [eauto with lia|].
    apply IH. apply Z.div_pos; lia.
Qed.

Lemma parseInt10_digit_headed (d : Z) (tail : string) :
  0 <= d < 10 ->
  parseInt10 (String (digit_char d) tail)
  = match read_digits (String (digit_char d) tail) false 0 with
    | Some n => to_double n
    | None => NaN
    end.
Proof.
  intros Hd.
  assert (d = 0 \/ d = 1 \/ d = 2 \/ d = 3 \/ d = 4 \/ d = 5 \/ d = 6
          \/ d = 7 \/ d = 8 \/ d = 9) as Hcases by lia.
  unfold parseInt10. generalize to_double. intros round.
  repeat (destruct Hcases as [-> | Hcases];
          [simpl; by destruct (read_digits _ _ _) as [z|]; [destruct z|] |]).
  subst. simpl. by destruct (read_digits _ _ _) as [z|]; [destruct z|].
Qed.

(** Up to 53 bits an integer is its own Number value and is printed with
    all its digits. *)
Lemma to_double_exact (n : Z) : Z.abs n < 2 ^ 53 -> to_double n = Num n.
Proof. intros Hn. unfold to_double. by apply Z.ltb_lt in Hn as ->. Qed.

Lemma toString_exact (n : Z) : 0 <= n < 2 ^ 53 -> toString (Num n) = digits_of n.
Proof.
  intros [Hpos Hn]. unfold toString, magnitude_toString.
  destruct (Z.ltb_spec n 0); [lia|]. by apply Z.ltb_lt in Hn as ->.
Qed.

(** [parseInt(String(n), 10) === n] for a positive integer of at most 53
    bits. *)
Lemma parseInt10_toString (n : Z) :
  0 < n < 2 ^ 53 -> parseInt10 (toString (Num n)) = Num n.
Proof.
  intros [Hpos Hn]. rewrite toString_exact by lia. unfold digits_of.
  destruct (digits_go_head (Z.to_nat (Z.log2 n)) n "" ltac:(lia)) as (d & tail & Heq & Hd).
  rewrite Heq, parseInt10_digit_headed by done. rewrite <- Heq.
  rewrite read_digits_go.
  - simpl. apply to_double_exact. lia.
  - split; [lia|]. by apply digits_of_fuel.
Qed.

Lemma split_head_tcp_key (n : Z) :
  0 < n < 2 ^ 53 -> JsString.split_head "/" (tcp_key n) = toString (Num n).
Proof.
  intros [Hpos Hn]. unfold tcp_key. rewrite toString_exact by lia. unfold digits_of.
  rewrite digits_go_app, split_head_digits_go by lia. reflexivity.
Qed.

Lemma endsWith_tcp_key (n : Z) : JsString.endsWith "/tcp" (tcp_key n) = true.
Proof. apply endsWith_app. Qed.

End NumberFacts.

(* ===================================================================== *)
(** ** Facts about discovery *)
(* ===================================================================== *)

Lemma select_ipAddress_first info net e others :
  Networks info = Some ((net, e) :: others) -> IPAddress e <> "" ->
  select_ipAddress info = Some (IPAddress e).
Proof.
  intros Hnets Hip. unfold select_ipAddress. rewrite Hnets. simpl.
  by destruct (IPAddress e).
Qed.

Lemma select_ipAddress_None info :
  select_ipAddress info = None <-> no_first_address info.
Proof.
  unfold select_ipAddress, no_first_address.
  destruct (Networks info) as [[|[net e] others]|]; simpl; try done.
  destruct (IPAddress e); simpl; split; congruence.
Qed.

Lemma select_ipAddress_truthy info ip :
  select_ipAddress info = Some ip -> JsString.truthy ip = true.
Proof.
  unfold select_ipAddress.
  destruct (Networks info) as [[|[net e] others]|]; simpl; try done.
  destruct (JsString.truthy (IPAddress e)) eqn:Ht; [|done]. by intros [= <-].
Qed.

Lemma declares_In ports k : declares ports k = true <-> In k ports.
Proof.
  unfold declares. rewrite existsb_exists. split.
  - intros (x & Hin & Heq). apply String.eqb_eq in Heq. by subst.
  - intros Hin. exists k. split; [done|]. apply String.eqb_refl.
Qed.

Lemma declares_not_In ports k : declares ports k = false <-> ~ In k ports.
Proof. rewrite <- declares_In. by destruct (declares ports k). Qed.

(** [find] returns the first key that ends in [/tcp]. *)
Lemma find_first_tcp (before after : list string) (portKey : string) :
  Forall (fun k => JsString.endsWith "/tcp" k = false) before ->
  JsString.endsWith "/tcp" portKey = true ->
  find (JsString.endsWith "/tcp") (before ++ portKey :: after) = Some portKey.
Proof.
  intros Hbefore Hkey. induction Hbefore as [|k before Hk _ IH]; simpl.
  - by rewrite Hkey.
  - by rewrite Hk.
Qed.

Lemma find_first_split (ports : list string) (portKey : string) :
  find (JsString.endsWith "/tcp") ports = Some portKey ->
  exists before after,
    ports = (before ++ portKey :: after)%list
    /\ Forall (fun k => JsString.endsWith "/tcp" k = false) before
    /\ JsString.endsWith "/tcp" portKey = true.
Proof.
  induction ports as [|k ports IH]; simpl; [done|].
  destruct (JsString.endsWith "/tcp" k) eqn:Hk.
  - intros [= ->]. by exists [], ports.
  - intros Hfind. destruct (IH Hfind) as (before & after & -> & Hbefore & Hkey).
    exists (k :: before), after. split; [done|]. split; [|done].
    by constructor.
Qed.

Lemma no_tcp_key (ports : list string) :
  Forall (fun k => JsString.endsWith "/tcp" k = false) ports ->
  declares ports "80/tcp" = false /\ find (JsString.endsWith "/tcp") ports = None.
Proof.
  induction 1 as [|k ports Hk Hports [IHd IHf]]; [done|].
  unfold declares in *. cbn [existsb find]. rewrite Hk, IHd, IHf.
  destruct (String.eqb_spec "80/tcp" k) as [<-|Hne]; [discriminate Hk|done].
Qed.

Lemma no_tcp_key_no_port info :
  Forall (fun k => JsString.endsWith "/tcp" k = false) (default [] (ExposedPorts info)) ->
  select_defaultPort info = None.
Proof.
  intros Hnone. apply no_tcp_key in Hnone as [Hd Hf].
  unfold select_defaultPort. by rewrite Hd, Hf.
Qed.

Lemma register_container_ok info db ip port :
  select_ipAddress info = Some ip ->
  select_defaultPort info = Some port ->
  JsNumber.truthy port = true ->
  register_container info db
  = (Ok (Registered (mkRecord (derive_containerName info) ip port (make_target ip port))),
     <[derive_containerName info :=
         mkRecord (derive_containerName info) ip port (make_target ip port)]> db).
Proof.
  intros Hip Hport Htruthy. unfold register_container.
  by rewrite Hip, Hport, Htruthy.
Qed.

Lemma register_container_inv info db :
  (exists r, built_from info r
             /\ register_container info db
                = (Ok (Registered r), <[containerName r := r]> db))
  \/ (select_ipAddress info = None
      /\ register_container info db = (Ok (ErrNoIp (derive_containerName info)), db))
  \/ (is_Some (select_ipAddress info)
      /\ (forall port, select_defaultPort info = Some port -> JsNumber.truthy port = false)
      /\ register_container info db = (Ok (ErrNoPort (derive_containerName info)), db)).
Proof.
  unfold register_container.
  destruct (select_ipAddress info) as [ip|] eqn:Hip; [|by right; left].
  destruct (select_defaultPort info) as [port|] eqn:Hport.
  - destruct (JsNumber.truthy port) eqn:Htruthy.
    + left. eexists (mkRecord _ ip port _). split; [|reflexivity].
      by repeat split.
    + right; right. split; [by eauto|]. split; [|done]. by intros ? [= <-].
  - right; right. by eauto.
Qed.

Lemma on_data_start inspect c id db :
  is_start_for c id ->
  on_data inspect c db
  = match inspect id with
    | Ok info => register_container info db
    | Throw e => (Ok (ErrInspect id e), db)
    end.
Proof.
  intros (event & actor & -> & Hty & Hact & Hactor & Hid & Hne).
  unfold on_data, try_catch, handle_event, bind, parse_event, ret.
  rewrite Hty, Hact, Hactor, Hid. simpl.
  apply truthy_nonempty in Hne as ->.
  unfold inspect_and_register, try_catch, bind, lift, ret.
  destruct (inspect id) as [info|e]; [|done].
  destruct (register_container_inv info db)
    as [(r & _ & ->)|[(_ & ->)|(_ & _ & ->)]]; done.
Qed.

(** The full-success path, or no change at all; the promise never
    rejects. *)
Lemma on_data_inv inspect c db :
  (exists id info r,
      is_start_for c id /\ inspect id = Ok info /\ built_from info r
      /\ on_data inspect c db = (Ok (Registered r), <[containerName r := r]> db))
  \/ (exists o, (forall r, o <> Registered r)
                /\ on_data inspect c db = (Ok o, db)).
Proof.
  destruct c as [| | |event]; try (right; by eexists; split; [|reflexivity]).
  destruct (decide (ev_Type event = Some "container")) as [Hty|Hty];
    [destruct (decide (ev_Action event = Some "start")) as [Hact|Hact]|].
  - destruct (ev_Actor event) as [actor|] eqn:Hactor.
    + destruct (ID actor) as [id|] eqn:Hid.
      * destruct (decide (id = "")) as [->|Hne].
        -- right. exists WarnNoContainerId. split; [done|].
           unfold on_data, try_catch, handle_event, bind, parse_event, ret.
           rewrite Hty, Hact, Hactor, Hid. by rewrite !bool_decide_eq_true_2.
        -- assert (is_start_for (ChunkEvent event) id) as Hstart
             by (exists event, actor; done).
           rewrite (on_data_start _ _ _ _ Hstart).
           destruct (inspect id) as [info|e] eqn:Hinspect.
           ++ destruct (register_container_inv info db)
                as [(r & Hr & ->)|[(_ & ->)|(_ & _ & ->)]].
              ** left. by exists id, info, r.
              ** right. by eexists; split; [|reflexivity].
              ** right. by eexists; split; [|reflexivity].
           ++ right. by eexists; split; [|reflexivity].
      * right. exists WarnNoContainerId. split; [done|].
        unfold on_data, try_catch, handle_event, bind, parse_event, ret.
        rewrite Hty, Hact, Hactor, Hid. by rewrite !bool_decide_eq_true_2.
    + right. exists (ErrParse TypeError). split; [done|].
      unfold on_data, try_catch, handle_event, bind, parse_event, ret, throw.
      rewrite Hty, Hact, Hactor. by rewrite !bool_decide_eq_true_2.
  - right. exists Ignored. split; [done|].
    unfold on_data, try_catch, handle_event, bind, parse_event, ret.
    rewrite (bool_decide_eq_false_2 (ev_Action event = _)) by done.
    by rewrite andb_false_r.
  - right. exists Ignored. split; [done|].
    unfold on_data, try_catch, handle_event, bind, parse_event, ret.
    by rewrite (bool_decide_eq_false_2 (ev_Type event = _)) by done.
Qed.

(** The middleware, one table lookup at a time. *)
Lemma reverseProxyApp_eq proxy_web hostname db :
  reverseProxyApp proxy_web (Some hostname) db
  = match db !! JsString.split_head "." hostname with
    | None =>
        (Ok (mkExchange None
               (res_json 404 [("status", "error"); ("message", "Container not found")])),
         db)
    | Some r =>
        if JsString.truthy (target r) then
          match proxy_web (target r) with
          | BackendReplied resp => (Ok (mkExchange (Some (target r)) resp), db)
          | BackendFailed _ =>
              (Ok (mkExchange (Some (target r)) (res_send 502 "Bad gateway.")), db)
          end
        else
          (Ok (mkExchange None
                 (res_json 500 [("status", "error");
                                ("message", "Invalid target configuration")])),
           db)
    end.
Proof.
  unfold reverseProxyApp, bind, db_has, db_get, ret.
  generalize (JsString.split_head "." hostname). intros subdomain.
  destruct (db !! subdomain) as [r|] eqn:Hlookup; simpl; [|done].
  rewrite Hlookup. destruct (JsString.truthy (target r)); simpl; [|done].
  by destruct (proxy_web (target r)).
Qed.

(** The [upgrade] listener, one table lookup at a time. *)
Lemma on_upgrade_eq proxy_ws hostname db :
  hostname <> "" ->
  on_upgrade proxy_ws (Some hostname) db
  = match db !! JsString.split_head "." hostname with
    | None => (Ok (mkUpgrade None (Some (status_line "404" "Not Found"))), db)
    | Some r =>
        if JsString.truthy (target r) then
          match proxy_ws (target r) with
          | WsTunnelled => (Ok (mkUpgrade (Some (target r)) None), db)
          | WsFailed _ =>
              (Ok (mkUpgrade (Some (target r)) (Some (status_line "502" "Bad Gateway"))), db)
          end
        else (Ok (mkUpgrade None (Some (status_line "502" "Bad Gateway"))), db)
    end.
Proof.
  intros Hne. destruct hostname as [|a hostname]; [done|].
  unfold on_upgrade, bind, db_has, db_get, ret.
  generalize (JsString.split_head "." (String a hostname)). intros subdomain.
  destruct (db !! subdomain) as [r|] eqn:Hlookup; simpl; [|done].
  rewrite Hlookup. destruct (JsString.truthy (target r)); simpl; [|done].
  by destruct (proxy_ws (target r)).
Qed.

Lemma on_upgrade_no_host proxy_ws host db :
  host = None \/ host = Some "" ->
  on_upgrade proxy_ws host db
  = (Ok (mkUpgrade None (Some (status_line "400" "Bad Request"))), db).
Proof. by intros [-> | ->]. Qed.

(** The router only reads the table. *)
Lemma reverseProxyApp_reads proxy_web hostname db :
  snd (reverseProxyApp proxy_web hostname db) = db.
Proof.
  destruct hostname as [hostname|]; [|done]. rewrite reverseProxyApp_eq.
  destruct (db !! _) as [r|]; [|done].
  destruct (JsString.truthy _); [|done]. by destruct (proxy_web _).
Qed.

Lemma on_upgrade_reads proxy_ws host db :
  snd (on_upgrade proxy_ws host db) = db.
Proof.
  destruct host as [[|a hostname]|]; [done| |done].
  rewrite on_upgrade_eq by done.
  destruct (db !! _) as [r|]; [|done].
  destruct (JsString.truthy _); [|done]. by destruct (proxy_ws _).
Qed.

(* ===================================================================== *)
(** ** C1: port selection and the registered target *)
(* ===================================================================== *)

(** C1, as stated, fails: the first network carries an address, 80 is
    not declared, the first (and only) key ending in ["/tcp"] is
    ["0/tcp"] with numeric prefix 0, yet no port is resolved and nothing
    is registered: the handler ends with "No default TCP port found". *)
Lemma C1_counterexample :
  is_start_for (start_event "c1") "c1"
  /\ Networks port_zero_info = Some [("bridge", mkEndpoint "10.0.0.5")]
  /\ default [] (ExposedPorts port_zero_info) = ["0/tcp"]
  /\ JsNumber.parseInt10 (JsString.split_head "/" "0/tcp") = JsNumber.Num 0
  /\ on_data (fun _ => Ok port_zero_info) (start_event "c1") ∅
     = (Ok (ErrNoPort "web1"), ∅).
Proof.
  split; [by eexists _, _|].
  repeat (split; [reflexivity|]). vm_compute. reflexivity.
Qed.

(** C1, amended.  For a container-start event whose inspection succeeds
    and whose first network carries the address [ip]: when the exposed
    ports declare the key ["80/tcp"] the container is registered with
    port 80 and target ["http://<ip>:80"], whatever else is declared.
    Otherwise the handler reads the first key ending in ["/tcp"] and
    takes [parseInt] of the part before its ['/']: when that is a number
    other than zero the container is registered with that port (the
    port [p] for a key ["<p>/tcp"], [p] a positive integer of at most 53
    bits) and target ["http://<ip>:<port>"]; when it is [NaN] or zero,
    or when no key ends in ["/tcp"], nothing is registered.  Whatever
    record such an event registers has this address, this port and this
    target.  The specification's scenario (ports 80 and 8080 on
    10.0.0.5) registers [web1] with target ["http://10.0.0.5:80"]. *)
Theorem C1_port_selection
    (inspect : string -> result ContainerInfo) (c : chunk) (id : string)
    (info : ContainerInfo) (net ip : string)
    (others : list (string * EndpointSettings)) (db : registry) :
  is_start_for c id ->
  inspect id = Ok info ->
  Networks info = Some ((net, mkEndpoint ip) :: others) ->
  ip <> "" ->
  let name := derive_containerName info in
  let ports := default [] (ExposedPorts info) in
  let registers (port : JsNumber.jsnum) (url : string) :=
    on_data inspect c db
    = (Ok (Registered (mkRecord name ip port url)),
       <[name := mkRecord name ip port url]> db) in
  let refuses := on_data inspect c db = (Ok (ErrNoPort name), db) in
  (In "80/tcp" ports -> registers (JsNumber.Num 80) ("http://" ++ ip ++ ":80"))
  /\ (forall (before : list string) (portKey : string) (after : list string),
         ~ In "80/tcp" ports ->
         ports = (before ++ portKey :: after)%list ->
         Forall (fun k => JsString.endsWith "/tcp" k = false) before ->
         JsString.endsWith "/tcp" portKey = true ->
         match JsNumber.parseInt10 (JsString.split_head "/" portKey) with
         | JsNumber.NaN | JsNumber.Num 0 => refuses
         | port => registers port ("http://" ++ ip ++ ":" ++ JsNumber.toString port)
         end)
  /\ (forall (before after : list string) (port : Z),
         ~ In "80/tcp" ports ->
         0 < port < 2 ^ 53 ->
         ports = (before ++ (JsNumber.toString (JsNumber.Num port) ++ "/tcp")%string
                         :: after)%list ->
         Forall (fun k => JsString.endsWith "/tcp" k = false) before ->
         registers (JsNumber.Num port)
                   ("http://" ++ ip ++ ":" ++ JsNumber.toString (JsNumber.Num port)))
  /\ (Forall (fun k => JsString.endsWith "/tcp" k = false) ports -> refuses)
  /\ (forall r db',
         on_data inspect c db = (Ok (Registered r), db') ->
         ipAddress r = ip
         /\ target r = "http://" ++ ip ++ ":" ++ JsNumber.toString (defaultPort r)
         /\ (In "80/tcp" ports -> defaultPort r = JsNumber.Num 80)
         /\ (~ In "80/tcp" ports ->
             exists (before : list string) (portKey : string) (after : list string),
               ports = (before ++ portKey :: after)%list
               /\ Forall (fun k => JsString.endsWith "/tcp" k = false) before
               /\ JsString.endsWith "/tcp" portKey = true
               /\ JsNumber.parseInt10 (JsString.split_head "/" portKey) = defaultPort r))
  /\ on_data inspect_web1 (start_event "c1") ∅
     = (Ok (Registered (mkRecord "web1" "10.0.0.5" (JsNumber.Num 80) "http://10.0.0.5:80")),
        {[ "web1" := mkRecord "web1" "10.0.0.5" (JsNumber.Num 80) "http://10.0.0.5:80" ]}).
Proof.
  intros Hstart Hinspect Hnets Hip name ports registers refuses.
  assert (select_ipAddress info = Some ip) as Hsel
    by exact (select_ipAddress_first info net (mkEndpoint ip) others Hnets Hip).
  assert (on_data inspect c db = register_container info db) as Hrun
    by (by rewrite (on_data_start _ _ _ _ Hstart), Hinspect).
  assert (forall port,
             select_defaultPort info = Some port -> JsNumber.truthy port = true ->
             registers port ("http://" ++ ip ++ ":" ++ JsNumber.toString port)) as Hreg.
  { intros port Hport Htruthy. unfold registers. rewrite Hrun.
    by apply register_container_ok. }
  assert (forall port,
             select_defaultPort info = Some port -> JsNumber.truthy port = false ->
             refuses) as Hrefuse.
  { intros port Hport Hfalsy. unfold refuses. rewrite Hrun.
    unfold register_container. by rewrite Hsel, Hport, Hfalsy. }
  assert (forall (before : list string) (portKey : string) (after : list string),
             ~ In "80/tcp" ports ->
             ports = (before ++ portKey :: after)%list ->
             Forall (fun k => JsString.endsWith "/tcp" k = false) before ->
             JsString.endsWith "/tcp" portKey = true ->
             select_defaultPort info
             = Some (JsNumber.parseInt10 (JsString.split_head "/" portKey))) as Hfirst.
  { intros before portKey after Hno80 Hports Hbefore Hkey.
    unfold select_defaultPort. fold ports.
    apply declares_not_In in Hno80 as ->.
    by rewrite Hports, (find_first_tcp _ _ _ Hbefore Hkey). }
  split; [|split; [|split; [|split; [|split]]]].
  - intros H80. apply (Hreg (JsNumber.Num 80)); [|done].
    unfold select_defaultPort. fold ports. by apply declares_In in H80 as ->.
  - intros before portKey after Hno80 Hports Hbefore Hkey.
    specialize (Hfirst before portKey after Hno80 Hports Hbefore Hkey).
    destruct (JsNumber.parseInt10 (JsString.split_head "/" portKey))
      as [|[|p|p]|negative] eqn:Hparse.
    + by apply (Hrefuse JsNumber.NaN).
    + by apply (Hrefuse (JsNumber.Num 0)).
    + by apply Hreg.
    + by apply Hreg.
    + by apply Hreg.
  - intros before after port Hno80 Hport Hports Hbefore.
    apply Hreg; [|simpl; destruct (Z.eqb_spec port 0); [lia|done]].
    rewrite (Hfirst before _ after Hno80 Hports Hbefore (endsWith_tcp_key port)).
    change (JsNumber.toString (JsNumber.Num port) ++ "/tcp")%string with (tcp_key port).
    by rewrite (split_head_tcp_key port Hport), parseInt10_toString.
  - intros Hnone. unfold refuses. rewrite Hrun.
    apply no_tcp_key_no_port in Hnone.
    unfold register_container. by rewrite Hsel, Hnone.
  - intros r db' Hregistered. rewrite Hrun in Hregistered.
    destruct (register_container_inv info db)
      as [(r' & Hbuilt & Heq)|[(_ & Heq)|(_ & _ & Heq)]];
      rewrite Heq in Hregistered; try discriminate.
    injection Hregistered as -> _.
    destruct Hbuilt as (_ & Hsel' & Hport & _ & Htarget).
    rewrite Hsel in Hsel'. injection Hsel' as Hsame.
    split; [done|]. split; [by rewrite Htarget, <- Hsame|].
    unfold select_defaultPort in Hport. fold ports in Hport.
    split.
    + intros H80. apply declares_In in H80. rewrite H80 in Hport.
      by injection Hport as <-.
    + intros Hno80. apply declares_not_In in Hno80. rewrite Hno80 in Hport.
      destruct (find _ ports) as [portKey|] eqn:Hfind; [|done].
      injection Hport as Hparse.
      destruct (find_first_split _ _ Hfind) as (before & after & Hports & Hbefore & Hkey).
      by exists before, portKey, after.
  - vm_compute. reflexivity.
Qed.

Lemma start_event_is_start (id : string) :
  id <> "" -> is_start_for (start_event id) id.
Proof. intros Hne. by eexists _, _. Qed.

Lemma C1_port_selection_witness :
  is_start_for (start_event "c1") "c1"
  /\ inspect_web1 "c1" = Ok web1_info
  /\ In "80/tcp" (default [] (ExposedPorts web1_info))
  /\ on_data inspect_web1 (start_event "c1") ∅
     = (Ok (Registered (mkRecord "web1" "10.0.0.5" (JsNumber.Num 80) "http://10.0.0.5:80")),
        <["web1" := mkRecord "web1" "10.0.0.5" (JsNumber.Num 80) "http://10.0.0.5:80"]> ∅).
Proof.
  assert ("c1" <> "") as Hne by discriminate.
  assert (In "80/tcp" (default [] (ExposedPorts web1_info))) as H80 by (simpl; auto).
  split; [by apply start_event_is_start|].
  split; [reflexivity|]. split; [exact H80|].
  exact (proj1 (C1_port_selection inspect_web1 (start_event "c1") "c1" web1_info
                  "bridge" "10.0.0.5" [] ∅
                  (start_event_is_start "c1" Hne) eq_refl eq_refl
                  ltac:(discriminate)) H80).
Defined.

(** A port other than 80 declared first wins when 80 is not declared. *)
Example first_tcp_port_3000 :
  on_data (fun _ => Ok (mkInfo "api" (Some [("bridge", mkEndpoint "172.17.0.2")])
                               (Some ["53/udp"; "3000/tcp"; "9229/tcp"])))
          (start_event "c2") ∅
  = (Ok (Registered (mkRecord "api" "172.17.0.2" (JsNumber.Num 3000) "http://172.17.0.2:3000")),
     {[ "api" := mkRecord "api" "172.17.0.2" (JsNumber.Num 3000) "http://172.17.0.2:3000" ]}).
Proof. vm_compute. reflexivity. Qed.

(* ===================================================================== *)
(** ** C2: address selection *)
(* ===================================================================== *)

(** C2, as stated, fails: a network carries an address, yet discovery
    ends with "Could not determine IP address" and registers nothing,
    because only the first network is looked at. *)
Lemma C2_counterexample :
  carries_address two_networks_info
  /\ on_data (fun _ => Ok two_networks_info) (start_event "c1") ∅
     = (Ok (ErrNoIp "web1"), ∅).
Proof.
  split.
  - exists [("host", mkEndpoint ""); ("bridge", mkEndpoint "10.0.0.5")],
           "bridge", (mkEndpoint "10.0.0.5").
    split; [reflexivity|]. split; [simpl; auto|discriminate].
  - vm_compute. reflexivity.
Qed.

(** C2, amended.  The service address is the address of the first
    network of the mapping, and of no other; resolution fails for lack
    of an address, leaving the table as it was, exactly when the mapping
    is missing or empty or its first network carries no address. *)
Theorem C2_first_network_only (info : ContainerInfo) (db : registry) :
  (forall net e others,
      Networks info = Some ((net, e) :: others) -> IPAddress e <> "" ->
      select_ipAddress info = Some (IPAddress e))
  /\ (forall r db',
         register_container info db = (Ok (Registered r), db') ->
         exists net e others,
           Networks info = Some ((net, e) :: others)
           /\ ipAddress r = IPAddress e /\ ipAddress r <> "")
  /\ (register_container info db = (Ok (ErrNoIp (derive_containerName info)), db)
      <-> no_first_address info)
  /\ (forall name db',
         register_container info db = (Ok (ErrNoIp name), db') -> db' = db).
Proof.
  split; [by apply select_ipAddress_first|].
  pose proof (register_container_inv info db) as Hinv.
  split; [|split].
  - intros r db' Hreg.
    destruct Hinv as [(r' & Hbuilt & Heq)|[(_ & Heq)|(_ & _ & Heq)]];
      rewrite Heq in Hreg; try discriminate.
    injection Hreg as -> _. destruct Hbuilt as (_ & Hip & _).
    pose proof (select_ipAddress_truthy _ _ Hip) as Htruthy.
    apply truthy_nonempty in Htruthy.
    unfold select_ipAddress in Hip.
    destruct (Networks info) as [[|[net e] others]|]; simpl in Hip; try done.
    destruct (JsString.truthy (IPAddress e)); [|done].
    injection Hip as Hip. by exists net, e, others.
  - rewrite <- select_ipAddress_None. split.
    + intros Hreg.
      destruct Hinv as [(r' & _ & Heq)|[(Hnone & _)|(_ & _ & Heq)]];
        [rewrite Heq in Hreg; discriminate|done|rewrite Heq in Hreg; discriminate].
    + intros Hnone.
      destruct Hinv as [(r' & (_ & Hip & _) & _)|[(_ & Heq)|([ip Hip] & _)]];
        [congruence|done|congruence].
  - intros name db' Hreg.
    destruct Hinv as [(r' & _ & Heq)|[(_ & Heq)|(_ & _ & Heq)]];
      rewrite Heq in Hreg; try discriminate.
    by injection Hreg as _ <-.
Qed.

Lemma C2_first_network_only_witness :
  no_first_address two_networks_info
  /\ register_container two_networks_info ∅ = (Ok (ErrNoIp "web1"), ∅).
Proof.
  assert (no_first_address two_networks_info) as Hnone by reflexivity.
  split; [exact Hnone|].
  exact (proj2 (proj1 (proj2 (proj2 (C2_first_network_only two_networks_info ∅)))) Hnone).
Defined.

(* ===================================================================== *)
(** ** Shared consequences of the discovery lemmas *)
(* ===================================================================== *)

Lemma on_data_registered inspect c db r db' :
  on_data inspect c db = (Ok (Registered r), db') ->
  db' = <[containerName r := r]> db
  /\ exists id info, is_start_for c id /\ inspect id = Ok info /\ built_from info r.
Proof.
  intros Hrun.
  destruct (on_data_inv inspect c db)
    as [(id & info & r' & Hstart & Hinspect & Hbuilt & Heq)|(o & Hnot & Heq)];
    rewrite Heq in Hrun.
  - injection Hrun as -> <-. split; [done|]. by exists id, info.
  - injection Hrun as -> _. by destruct (Hnot r).
Qed.

Lemma on_data_settles inspect c db :
  exists o, fst (on_data inspect c db) = Ok o.
Proof.
  destruct (on_data_inv inspect c db)
    as [(id & info & r & _ & _ & _ & ->)|(o & _ & ->)]; by eexists.
Qed.

Lemma on_data_unchanged_or_registered inspect c db :
  snd (on_data inspect c db) = db
  \/ exists r, on_data inspect c db = (Ok (Registered r), <[containerName r := r]> db).
Proof.
  destruct (on_data_inv inspect c db)
    as [(id & info & r & _ & _ & _ & ->)|(o & _ & ->)]; [right|left]; eauto.
Qed.

Lemma make_target_truthy ip port : JsString.truthy (make_target ip port) = true.
Proof. reflexivity. Qed.

Lemma built_from_target_truthy info r :
  built_from info r -> JsString.truthy (target r) = true.
Proof. intros (_ & _ & _ & _ & ->). apply make_target_truthy. Qed.

(* ===================================================================== *)
(** ** C3: error bodies of the HTTP listener *)
(* ===================================================================== *)

(** C3, as stated, fails: when the backend of a registered container
    refuses the connection the listener answers 502 with the text
    [Bad gateway.], which is not a JSON object of the error shape. *)
Lemma C3_counterexample :
  reverseProxyApp refused_backend (Some "web1.localhost") {[ "web1" := web1_record ]}
  = (Ok (mkExchange (Some "http://10.0.0.5:80")
                    (mkResponse 502 "text/html" (TextBody "Bad gateway."))),
     {[ "web1" := web1_record ]})
  /\ ~ is_error_json (TextBody "Bad gateway.").
Proof.
  split.
  - vm_compute. reflexivity.
  - intros [message Heq]. discriminate.
Qed.

(** C3, amended.  For a request that carries a host name the middleware
    always answers, and the failure responses it generates itself carry
    status 404 or 500 and a JSON body of the shape
    [{status: "error", message}]; when forwarding fails the response is
    502 with the plain text [Bad gateway.] (not JSON), and the proxy-wide
    error listener ends the response with that same text; when the
    backend answers, its response is passed on.  For a request without a
    host name the middleware throws before it writes any response: what
    the client then gets is not generated by this code. *)
Theorem C3_error_bodies
    (proxy_web : string -> proxy_web_result) (hostname : option string)
    (db : registry) :
  match hostname with
  | None => reverseProxyApp proxy_web hostname db = (Throw TypeError, db)
  | Some _ =>
      exists ex,
        reverseProxyApp proxy_web hostname db = (Ok ex, db)
        /\ (forwarded_to ex = None ->
            (status (response ex) = 404 \/ status (response ex) = 500)
            /\ content_type (response ex) = "application/json"
            /\ is_error_json (body (response ex)))
        /\ (forall t message,
               forwarded_to ex = Some t -> proxy_web t = BackendFailed message ->
               response ex = mkResponse 502 "text/html" (TextBody "Bad gateway.")
               /\ ~ is_error_json (body (response ex)))
        /\ (forall t answer,
               forwarded_to ex = Some t -> proxy_web t = BackendReplied answer ->
               response ex = answer)
  end
  /\ (forall headersSent,
         snd (proxy_on_error headersSent) = TextBody "Bad gateway."
         /\ ~ is_error_json (snd (proxy_on_error headersSent))
         /\ (headersSent = false ->
             fst (proxy_on_error headersSent) = Some (502, "text/plain"))).
Proof.
  split.
  - destruct hostname as [hostname|]; [|done].
    rewrite reverseProxyApp_eq.
    destruct (db !! _) as [r|].
    + destruct (JsString.truthy (target r)).
      * destruct (proxy_web (target r)) as [resp|failure] eqn:Hback;
          eexists; (split; [reflexivity|]); simpl;
          (split; [done|]); split.
        -- intros t message [= <-]. congruence.
        -- intros t answer [= <-]. congruence.
        -- intros t message [= <-] _. split; [done|]. by intros [? ?].
        -- intros t answer [= <-]. congruence.
      * eexists. split; [reflexivity|]. simpl. split; [|done].
        intros _. split; [by right|]. split; [done|]. by eexists.
    + eexists. split; [reflexivity|]. simpl. split; [|done].
      intros _. split; [by left|]. split; [done|]. by eexists.
  - intros headersSent. split; [done|]. split; [by intros [? ?]|]. by intros ->.
Qed.

Lemma C3_error_bodies_witness :
  is_error_json (JsonBody [("status", "error"); ("message", "Container not found")])
  /\ exists ex,
       reverseProxyApp refused_backend (Some "unknown.localhost")
                       {[ "web1" := web1_record ]}
       = (Ok ex, {[ "web1" := web1_record ]})
       /\ (forwarded_to ex = None ->
           (status (response ex) = 404 \/ status (response ex) = 500)
           /\ content_type (response ex) = "application/json"
           /\ is_error_json (body (response ex)))
       /\ (forall t message,
              forwarded_to ex = Some t -> refused_backend t = BackendFailed message ->
              response ex = mkResponse 502 "text/html" (TextBody "Bad gateway.")
              /\ ~ is_error_json (body (response ex)))
       /\ (forall t answer,
              forwarded_to ex = Some t -> refused_backend t = BackendReplied answer ->
              response ex = answer).
Proof.
  split; [by eexists|].
  exact (proj1 (C3_error_bodies refused_backend (Some "unknown.localhost")
                  {[ "web1" := web1_record ]})).
Defined.

(* ===================================================================== *)
(** ** C4: failed events leave the table alone *)
(* ===================================================================== *)

(** C4.  The listener always settles normally.  An event that is not a
    container start, or that names no container, or whose inspection
    fails, or whose first network has no address, or that has no usable
    TCP port, leaves the table exactly as it was; if the table changed,
    the event went all the way through inspection and resolution and one
    record was put. *)
Theorem C4_failures_leave_registry
    (inspect : string -> result ContainerInfo) (c : chunk) (db : registry) :
  (exists o, fst (on_data inspect c db) = Ok o)
  /\ (~ is_container_start c -> snd (on_data inspect c db) = db)
  /\ ((forall id, ~ is_start_for c id) -> snd (on_data inspect c db) = db)
  /\ (forall id e,
         is_start_for c id -> inspect id = Throw e ->
         on_data inspect c db = (Ok (ErrInspect id e), db))
  /\ (forall id info,
         is_start_for c id -> inspect id = Ok info -> no_first_address info ->
         on_data inspect c db = (Ok (ErrNoIp (derive_containerName info)), db))
  /\ (forall id info,
         is_start_for c id -> inspect id = Ok info ->
         ~ no_first_address info -> no_usable_port info ->
         on_data inspect c db = (Ok (ErrNoPort (derive_containerName info)), db))
  /\ (forall id info,
         is_start_for c id -> inspect id = Ok info ->
         Forall (fun k => JsString.endsWith "/tcp" k = false)
                (default [] (ExposedPorts info)) ->
         snd (on_data inspect c db) = db)
  /\ (snd (on_data inspect c db) <> db ->
      exists id info r,
        is_start_for c id /\ inspect id = Ok info /\ built_from info r
        /\ on_data inspect c db = (Ok (Registered r), <[containerName r := r]> db)).
Proof.
  pose proof (on_data_inv inspect c db) as Hinv.
  assert (forall id info,
             is_start_for c id -> inspect id = Ok info ->
             on_data inspect c db = register_container info db) as Hok.
  { intros id info Hstart Hinspect. by rewrite (on_data_start _ _ _ _ Hstart), Hinspect. }
  split; [apply on_data_settles|].
  split; [|split; [|split; [|split; [|split; [|split]]]]].
  - intros Hnot.
    destruct Hinv as [(id & info & r & Hstart & _)|(o & _ & ->)]; [|done].
    destruct Hnot. destruct Hstart as (event & actor & -> & Hty & Hact & _).
    by exists event.
  - intros Hnot.
    destruct Hinv as [(id & info & r & Hstart & _)|(o & _ & ->)]; [|done].
    by destruct (Hnot id).
  - intros id e Hstart Hinspect.
    by rewrite (on_data_start _ _ _ _ Hstart), Hinspect.
  - intros id info Hstart Hinspect Hnone. rewrite (Hok id info Hstart Hinspect).
    apply select_ipAddress_None in Hnone.
    destruct (register_container_inv info db)
      as [(r & (_ & Hip & _) & _)|[(_ & Heq)|([ip Hip] & _)]]; [congruence|done|congruence].
  - intros id info Hstart Hinspect Hsome Hport. rewrite (Hok id info Hstart Hinspect).
    rewrite <- select_ipAddress_None in Hsome.
    destruct (register_container_inv info db)
      as [(r & (_ & _ & Hsel & Hnz & _) & _)|[(Hnone & _)|(_ & _ & Heq)]];
      [by rewrite (Hport _ Hsel) in Hnz|by destruct Hsome|done].
  - intros id info Hstart Hinspect Hnone. rewrite (Hok id info Hstart Hinspect).
    apply no_tcp_key_no_port in Hnone.
    destruct (register_container_inv info db)
      as [(r & (_ & _ & Hsel & _) & _)|[(_ & ->)|(_ & _ & ->)]]; [congruence|done|done].
  - intros Hchanged.
    destruct Hinv as [(id & info & r & Hstart & Hinspect & Hbuilt & Heq)|(o & _ & Heq)].
    + by exists id, info, r.
    + rewrite Heq in Hchanged. by destruct Hchanged.
Qed.

Lemma C4_failures_leave_registry_witness :
  (forall id, ~ is_start_for (ChunkEvent (mkEvent (Some "container") (Some "start")
                                            (Some (mkActor None)))) id)
  /\ snd (on_data inspect_web1
            (ChunkEvent (mkEvent (Some "container") (Some "start") (Some (mkActor None))))
            {[ "web1" := web1_record ]})
     = {[ "web1" := web1_record ]}.
Proof.
  assert (forall id, ~ is_start_for (ChunkEvent (mkEvent (Some "container") (Some "start")
                                                   (Some (mkActor None)))) id) as Hno.
  { intros id (event & actor & [= <-] & _ & _ & [= <-] & Hid & _). discriminate. }
  split; [exact Hno|].
  exact (proj1 (proj2 (proj2 (C4_failures_leave_registry inspect_web1 _ _))) Hno).
Defined.

(* ===================================================================== *)
(** ** C5: last write wins *)
(* ===================================================================== *)

(** C5.  After two start events that were both registered under the same
    name, the table holds exactly the second record under that name, and
    is the table the second event alone would have produced: nothing of
    the first record is left.  A request for that name is forwarded to
    the second target. *)
Theorem C5_last_write_wins
    (inspect1 inspect2 : string -> result ContainerInfo) (c1 c2 : chunk)
    (db db1 db2 : registry) (r1 r2 : ServiceRecord) :
  on_data inspect1 c1 db = (Ok (Registered r1), db1) ->
  on_data inspect2 c2 db1 = (Ok (Registered r2), db2) ->
  containerName r1 = containerName r2 ->
  db2 !! containerName r2 = Some r2
  /\ db2 = <[containerName r2 := r2]> db
  /\ (forall proxy_web hostname,
         JsString.split_head "." hostname = containerName r2 ->
         exists resp,
           reverseProxyApp proxy_web (Some hostname) db2
           = (Ok (mkExchange (Some (target r2)) resp), db2)).
Proof.
  intros Hfirst Hsecond Hname.
  apply on_data_registered in Hfirst as [-> _].
  apply on_data_registered in Hsecond as [-> (id & info & _ & _ & Hbuilt)].
  rewrite Hname, insert_insert_eq.
  split; [apply lookup_insert_eq|]. split; [done|].
  intros proxy_web hostname Hsub.
  rewrite reverseProxyApp_eq, Hsub, lookup_insert_eq.
  rewrite (built_from_target_truthy _ _ Hbuilt).
  destruct (proxy_web (target r2)); by eexists.
Qed.

Lemma C5_last_write_wins_witness :
  on_data inspect_web1 (start_event "c1") ∅
  = (Ok (Registered web1_record), {[ "web1" := web1_record ]})
  /\ on_data (fun _ => Ok web1_info_restarted) (start_event "c7") {[ "web1" := web1_record ]}
     = (Ok (Registered web1_record_restarted), {[ "web1" := web1_record_restarted ]})
  /\ ({[ "web1" := web1_record_restarted ]} : registry) !! "web1"
     = Some web1_record_restarted.
Proof.
  assert (on_data inspect_web1 (start_event "c1") ∅
          = (Ok (Registered web1_record), {[ "web1" := web1_record ]})) as H1
    by (vm_compute; reflexivity).
  assert (on_data (fun _ => Ok web1_info_restarted) (start_event "c7")
                  {[ "web1" := web1_record ]}
          = (Ok (Registered web1_record_restarted), {[ "web1" := web1_record_restarted ]}))
    as H2 by (vm_compute; reflexivity).
  split; [exact H1|]. split; [exact H2|].
  exact (proj1 (C5_last_write_wins _ _ _ _ _ _ _ _ _ H1 H2 eq_refl)).
Defined.

(* ===================================================================== *)
(** ** C6: the registered name and the looked-up name *)
(* ===================================================================== *)

Lemma split_head_no_char (c : ascii) (s : string) :
  has_char c s = false -> JsString.split_head c s = s.
Proof.
  induction s as [|a s IH]; simpl; [done|].
  destruct (Ascii.eqb a c); simpl; [done|]. intros H. by rewrite IH.
Qed.

Lemma derive_containerName_slash info n :
  Name info = String "/" n -> derive_containerName info = n.
Proof. intros H. unfold derive_containerName. by rewrite H. Qed.

(** C6.  Discovery registers a container under its reported name without
    the leading ['/'] (and under the name itself when there is none); the
    router looks up the part of the host before the first ['.'].  So a
    registered container whose name has no dot is found by a request for
    [<name>.<anything>], which is forwarded to the registered target; in
    particular [/web1] is registered as [web1] and a request for
    [web1.localhost] is forwarded to its target. *)
Theorem C6_names_compose
    (inspect : string -> result ContainerInfo) (c : chunk)
    (db db' : registry) (r : ServiceRecord) :
  on_data inspect c db = (Ok (Registered r), db') ->
  (exists id info,
      is_start_for c id /\ inspect id = Ok info
      /\ containerName r = derive_containerName info
      /\ (forall n, Name info = String "/" n -> containerName r = n)
      /\ (JsString.startsWith "/" (Name info) = false -> containerName r = Name info))
  /\ db' !! containerName r = Some r
  /\ (forall label rest,
         has_char "." label = false ->
         JsString.split_head "." (label ++ "." ++ rest) = label)
  /\ (forall proxy_web rest,
         has_char "." (containerName r) = false ->
         exists resp,
           reverseProxyApp proxy_web (Some (containerName r ++ "." ++ rest)) db'
           = (Ok (mkExchange (Some (target r)) resp), db')
           /\ (forall answer, proxy_web (target r) = BackendReplied answer -> resp = answer))
  /\ (forall proxy_web answer,
         proxy_web "http://10.0.0.5:80" = BackendReplied answer ->
         reverseProxyApp proxy_web (Some "web1.localhost")
                         (snd (on_data inspect_web1 (start_event "c1") ∅))
         = (Ok (mkExchange (Some "http://10.0.0.5:80") answer),
            {[ "web1" := web1_record ]})).
Proof.
  intros Hrun.
  apply on_data_registered in Hrun as [-> (id & info & Hstart & Hinspect & Hbuilt)].
  pose proof Hbuilt as (Hname & _).
  split; [|split; [|split; [|split]]].
  - exists id, info. repeat (split; [done|]). split.
    + intros n Hn. rewrite Hname. by apply derive_containerName_slash.
    + intros Hno. rewrite Hname. unfold derive_containerName. by rewrite Hno.
  - apply lookup_insert_eq.
  - intros label rest Hlabel. apply split_head_app. by apply split_head_no_char.
  - intros proxy_web rest Hlabel.
    rewrite reverseProxyApp_eq.
    change ("." ++ rest)%string with (String "." rest).
    rewrite (split_head_app "." _ _ (split_head_no_char _ _ Hlabel)).
    rewrite lookup_insert_eq, (built_from_target_truthy _ _ Hbuilt).
    destruct (proxy_web (target r)) as [resp|message].
    + exists resp. split; [done|]. by intros answer [= <-].
    + eexists. split; [done|]. by intros answer [=].
  - intros proxy_web answer Hanswer. rewrite reverseProxyApp_eq.
    change (snd (on_data inspect_web1 (start_event "c1") ∅))
      with (<["web1" := web1_record]> (∅ : registry)).
    change (JsString.split_head "." "web1.localhost") with "web1".
    rewrite lookup_insert_eq. simpl. by rewrite Hanswer.
Qed.

Lemma C6_names_compose_witness :
  on_data inspect_web1 (start_event "c1") ∅
  = (Ok (Registered web1_record), {[ "web1" := web1_record ]})
  /\ ({[ "web1" := web1_record ]} : registry) !! "web1" = Some web1_record.
Proof.
  assert (on_data inspect_web1 (start_event "c1") ∅
          = (Ok (Registered web1_record), {[ "web1" := web1_record ]})) as Hrun
    by (vm_compute; reflexivity).
  split; [exact Hrun|].
  exact (proj1 (proj2 (C6_names_compose _ _ _ _ _ Hrun))).
Defined.

(* ===================================================================== *)
(** ** C7: unknown service *)
(* ===================================================================== *)

(** C7.  A request whose sub-domain is not in the table is answered, by
    the middleware itself and whatever the backends would do, with status
    404 and the JSON body [{status: "error", message: "Container not
    found"}]; nothing is forwarded and the table is not touched. *)
Theorem C7_unknown_service_404
    (proxy_web : string -> proxy_web_result) (hostname : string) (db : registry) :
  db !! JsString.split_head "." hostname = None ->
  reverseProxyApp proxy_web (Some hostname) db
  = (Ok (mkExchange None
           (mkResponse 404 "application/json"
              (JsonBody [("status", "error"); ("message", "Container not found")]))),
     db).
Proof. intros Hnone. by rewrite reverseProxyApp_eq, Hnone. Qed.

Lemma C7_unknown_service_404_witness :
  ({[ "web1" := web1_record ]} : registry) !! JsString.split_head "." "unknown.localhost" = None
  /\ reverseProxyApp refused_backend (Some "unknown.localhost") {[ "web1" := web1_record ]}
     = (Ok (mkExchange None
              (mkResponse 404 "application/json"
                 (JsonBody [("status", "error"); ("message", "Container not found")]))),
        {[ "web1" := web1_record ]}).
Proof.
  assert (({[ "web1" := web1_record ]} : registry)
            !! JsString.split_head "." "unknown.localhost" = None) as Hnone
    by (vm_compute; reflexivity).
  split; [exact Hnone|].
  exact (C7_unknown_service_404 refused_backend "unknown.localhost" _ Hnone).
Defined.

(* ===================================================================== *)
(** ** C8: WebSocket upgrades *)
(* ===================================================================== *)

(** C8.  An upgrade request always ends in one of two ways: the socket is
    handed to a backend that accepted the tunnel, or an HTTP status line
    is written to the socket as it is closed: 400 when the host header is
    missing (or empty), 404 when the sub-domain is not registered, 502
    when the backend cannot be reached.  The table is not touched. *)
Theorem C8_upgrade_failures
    (proxy_ws : string -> proxy_ws_result) (host : option string) (db : registry) :
  (host = None \/ host = Some "" ->
   on_upgrade proxy_ws host db
   = (Ok (mkUpgrade None (Some ("HTTP/1.1 400 Bad Request" ++ CRLF ++ CRLF))), db))
  /\ (forall hostname,
         host = Some hostname -> hostname <> "" ->
         db !! JsString.split_head "." hostname = None ->
         on_upgrade proxy_ws host db
         = (Ok (mkUpgrade None (Some ("HTTP/1.1 404 Not Found" ++ CRLF ++ CRLF))), db))
  /\ (forall hostname r message,
         host = Some hostname -> hostname <> "" ->
         db !! JsString.split_head "." hostname = Some r ->
         target r <> "" ->
         proxy_ws (target r) = WsFailed message ->
         on_upgrade proxy_ws host db
         = (Ok (mkUpgrade (Some (target r))
                          (Some ("HTTP/1.1 502 Bad Gateway" ++ CRLF ++ CRLF))), db))
  /\ (exists ex,
         on_upgrade proxy_ws host db = (Ok ex, db)
         /\ match socket_end ex with
            | None => exists t, upgraded_to ex = Some t /\ proxy_ws t = WsTunnelled
            | Some line =>
                line = "HTTP/1.1 400 Bad Request" ++ CRLF ++ CRLF
                \/ line = "HTTP/1.1 404 Not Found" ++ CRLF ++ CRLF
                \/ line = "HTTP/1.1 502 Bad Gateway" ++ CRLF ++ CRLF
            end).
Proof.
  split; [apply on_upgrade_no_host|]. split; [|split].
  - intros hostname -> Hne Hnone. by rewrite on_upgrade_eq, Hnone.
  - intros hostname r message -> Hne Hsome Htarget Hfail.
    rewrite on_upgrade_eq, Hsome by done.
    apply truthy_nonempty in Htarget as ->. by rewrite Hfail.
  - destruct host as [[|a hostname]|].
    + eexists. split; [reflexivity|]. simpl. by left.
    + rewrite on_upgrade_eq by done.
      destruct (db !! _) as [r|].
      * destruct (JsString.truthy (target r)).
        -- destruct (proxy_ws (target r)) eqn:Hback.
           ++ eexists. split; [reflexivity|]. simpl. by exists (target r).
           ++ eexists. split; [reflexivity|]. simpl. by right; right.
        -- eexists. split; [reflexivity|]. simpl. by right; right.
      * eexists. split; [reflexivity|]. simpl. by right; left.
    + eexists. split; [reflexivity|]. simpl. by left.
Qed.

Lemma C8_upgrade_failures_witness :
  ({[ "web1" := web1_record ]} : registry) !! JsString.split_head "." "web1.localhost"
  = Some web1_record
  /\ on_upgrade refused_tunnel (Some "web1.localhost") {[ "web1" := web1_record ]}
     = (Ok (mkUpgrade (Some "http://10.0.0.5:80")
                      (Some ("HTTP/1.1 502 Bad Gateway" ++ CRLF ++ CRLF))),
        {[ "web1" := web1_record ]}).
Proof.
  assert (({[ "web1" := web1_record ]} : registry)
            !! JsString.split_head "." "web1.localhost" = Some web1_record) as Hsome
    by (vm_compute; reflexivity).
  split; [exact Hsome|].
  exact (proj1 (proj2 (proj2 (C8_upgrade_failures refused_tunnel (Some "web1.localhost")
                                {[ "web1" := web1_record ]})))
           "web1.localhost" web1_record "connect ECONNREFUSED"
           eq_refl ltac:(discriminate) Hsome ltac:(discriminate) eq_refl).
Defined.

(* ===================================================================== *)
(** ** C9: nothing is ever removed *)
(* ===================================================================== *)

Lemma step_keeps (i : core_input) (db : registry) (name : string) :
  is_Some (db !! name) -> is_Some (step i db !! name).
Proof.
  intros Hsome. destruct i as [inspect c|proxy_web hostname|proxy_ws host]; simpl.
  - destruct (on_data_unchanged_or_registered inspect c db) as [->|(r & ->)]; [done|].
    simpl. destruct (decide (containerName r = name)) as [->|Hne].
    + rewrite lookup_insert_eq. by eexists.
    + by rewrite lookup_insert_ne.
  - by rewrite reverseProxyApp_reads.
  - by rewrite on_upgrade_reads.
Qed.

Lemma run_keeps (inputs : list core_input) : forall (db : registry) (name : string),
  is_Some (db !! name) -> is_Some (run inputs db !! name).
Proof.
  induction inputs as [|i inputs IH]; intros db name Hsome; [done|].
  simpl. apply IH. by apply step_keeps.
Qed.

Lemma run_app (inputs1 inputs2 : list core_input) (db : registry) :
  run (inputs1 ++ inputs2) db = run inputs2 (run inputs1 db).
Proof. unfold run. apply fold_left_app. Qed.

(** C9.  A name that is registered stays registered under every later
    event, request and upgrade: one input never takes a name from
    registered back to unknown (it leaves the entry, or overwrites it),
    requests and upgrades leave the whole table as it is, and along any
    sequence of inputs the set of registered names only grows. *)
Theorem C9_no_removal (inputs later : list core_input) (db : registry) (name : string) :
  (forall i, is_Some (db !! name) -> is_Some (step i db !! name))
  /\ (forall i, db !! name = None ->
                step i db !! name = None
                \/ exists r, step i db = <[name := r]> db /\ containerName r = name)
  /\ (forall proxy_web hostname, step (HttpRequest proxy_web hostname) db = db)
  /\ (forall proxy_ws host, step (UpgradeRequest proxy_ws host) db = db)
  /\ (is_Some (db !! name) -> is_Some (run inputs db !! name))
  /\ dom db ⊆ dom (run inputs db)
  /\ dom (run inputs db) ⊆ dom (run (inputs ++ later) db).
Proof.
  assert (forall (l : list core_input) (m : registry), dom m ⊆ dom (run l m)) as Hdom.
  { intros l m k. rewrite !elem_of_dom. apply run_keeps. }
  split; [intros i; apply step_keeps|].
  split; [|split; [|split; [|split; [|split]]]].
  - intros i Hnone. destruct i as [inspect c|proxy_web hostname|proxy_ws host]; simpl.
    + destruct (on_data_unchanged_or_registered inspect c db) as [->|(r & ->)];
        [by left|]. simpl.
      destruct (decide (containerName r = name)) as [<-|Hne].
      * right. by exists r.
      * left. by rewrite lookup_insert_ne.
    + left. by rewrite reverseProxyApp_reads.
    + left. by rewrite on_upgrade_reads.
  - intros proxy_web hostname. apply reverseProxyApp_reads.
  - intros proxy_ws host. apply on_upgrade_reads.
  - apply run_keeps.
  - apply Hdom.
  - rewrite run_app. apply Hdom.
Qed.

Lemma C9_no_removal_witness :
  is_Some (({[ "web1" := web1_record ]} : registry) !! "web1")
  /\ is_Some (run [DockerData (fun _ => Ok web1_info_restarted) (start_event "c7");
                   HttpRequest refused_backend (Some "web1.localhost");
                   DockerData inspect_web1 ChunkMalformed;
                   UpgradeRequest refused_tunnel None]
                  {[ "web1" := web1_record ]} !! "web1").
Proof.
  assert (is_Some (({[ "web1" := web1_record ]} : registry) !! "web1")) as Hsome
    by (exists web1_record; vm_compute; reflexivity).
  split; [exact Hsome|].
  exact (proj1 (proj2 (proj2 (proj2 (proj2 (C9_no_removal _ [] _ "web1"))))) Hsome).
Defined.

(* ===================================================================== *)
(** ** C10: stored targets are well formed *)
(* ===================================================================== *)

Lemma built_from_well_targeted info r : built_from info r -> well_targeted r.
Proof.
  intros Hbuilt. split.
  - by destruct Hbuilt as (_ & _ & _ & _ & ->).
  - apply truthy_nonempty. by apply (built_from_target_truthy info).
Qed.

Lemma discovered_well_targeted (db : registry) :
  discovered db -> forall name r, db !! name = Some r -> well_targeted r.
Proof.
  induction 1 as [|inspect c db Hdb IH]; intros name r Hlookup.
  - by rewrite lookup_empty in Hlookup.
  - destruct (on_data_inv inspect c db)
      as [(id & info & r' & _ & _ & Hbuilt & Heq)|(o & _ & Heq)];
      rewrite Heq in Hlookup; simpl in Hlookup; [|by eapply IH].
    destruct (decide (containerName r' = name)) as [<-|Hne].
    + rewrite lookup_insert_eq in Hlookup. injection Hlookup as <-.
      by apply (built_from_well_targeted info).
    + rewrite lookup_insert_ne in Hlookup by done. by eapply IH.
Qed.

(** Whatever the core is fed, starting from the empty table, the table
    is one that discovery alone could have built. *)
Lemma run_discovered (inputs : list core_input) : forall (db : registry),
  discovered db -> discovered (run inputs db).
Proof.
  induction inputs as [|i inputs IH]; intros db Hdb; [done|].
  simpl. apply IH.
  destruct i as [inspect c|proxy_web hostname|proxy_ws host]; simpl.
  - by apply discovered_data.
  - by rewrite reverseProxyApp_reads.
  - by rewrite on_upgrade_reads.
Qed.

(** C10.  In a table built by discovery every record has a non-empty
    [target] equal to ["http://"], its own [ipAddress], [":"] and its own
    [defaultPort]; hence, on such a table, the middleware never answers
    with its 500 "Invalid target configuration" response and the upgrade
    listener never takes its empty-target 502 exit (a 502 line is only
    written after [proxy.ws] was tried). *)
Theorem C10_targets_well_formed (db : registry) :
  discovered db ->
  (forall name r, db !! name = Some r -> well_targeted r)
  /\ (forall inspect c r db',
         on_data inspect c db = (Ok (Registered r), db') ->
         well_targeted r /\ discovered db')
  /\ (forall proxy_web hostname ex db',
         reverseProxyApp proxy_web (Some hostname) db = (Ok ex, db') ->
         ex <> mkExchange None
                 (res_json 500 [("status", "error");
                                ("message", "Invalid target configuration")]))
  /\ (forall proxy_ws host ex db',
         on_upgrade proxy_ws host db = (Ok ex, db') ->
         ex <> mkUpgrade None (Some (status_line "502" "Bad Gateway"))).
Proof.
  intros Hdb. pose proof (discovered_well_targeted db Hdb) as Hwell.
  split; [exact Hwell|]. split; [|split].
  - intros inspect c r db' Hrun. split.
    + apply on_data_registered in Hrun as [_ (id & info & _ & _ & Hbuilt)].
      by apply (built_from_well_targeted info).
    + replace db' with (snd (on_data inspect c db)) by (by rewrite Hrun).
      by apply discovered_data.
  - intros proxy_web hostname ex db' Hrun. rewrite reverseProxyApp_eq in Hrun.
    destruct (db !! _) as [r|] eqn:Hlookup.
    + destruct (Hwell _ _ Hlookup) as [_ Hne]. apply truthy_nonempty in Hne.
      rewrite Hne in Hrun.
      destruct (proxy_web (target r)); by injection Hrun as <- _.
    + by injection Hrun as <- _.
  - intros proxy_ws host ex db' Hrun.
    destruct host as [[|a hostname]|]; [by injection Hrun as <- _| |by injection Hrun as <- _].
    rewrite on_upgrade_eq in Hrun by done.
    destruct (db !! _) as [r|] eqn:Hlookup.
    + destruct (Hwell _ _ Hlookup) as [_ Hne]. apply truthy_nonempty in Hne.
      rewrite Hne in Hrun.
      destruct (proxy_ws (target r)); by injection Hrun as <- _.
    + by injection Hrun as <- _.
Qed.

Lemma C10_targets_well_formed_witness :
  discovered (snd (on_data inspect_web1 (start_event "c1") ∅))
  /\ well_targeted web1_record.
Proof.
  assert (discovered (snd (on_data inspect_web1 (start_event "c1") ∅))) as Hdb
    by (apply discovered_data, discovered_empty).
  split; [exact Hdb|].
  apply (proj1 (C10_targets_well_formed _ Hdb) "web1" web1_record).
  vm_compute. reflexivity.
Defined.

(* ===================================================================== *)
(** ** Discovery beyond the claims: what one event does to the table *)
(* ===================================================================== *)

Lemma register_container_shape info :
  exists o, forall db, register_container info db = (Ok o, table_after o db).
Proof.
  unfold register_container.
  destruct (select_ipAddress info) as [ip|];
    [|by exists (ErrNoIp (derive_containerName info))].
  destruct (select_defaultPort info) as [port|];
    [|by exists (ErrNoPort (derive_containerName info))].
  destruct (JsNumber.truthy port);
    [|by exists (ErrNoPort (derive_containerName info))].
  by exists (Registered (mkRecord (derive_containerName info) ip port
                                   (make_target ip port))).
Qed.

(** An event has one outcome, whatever the table holds, and the table
    after it is the table before it with at most one [db.set]. *)
Lemma on_data_shape inspect c :
  exists o, forall db, on_data inspect c db = (Ok o, table_after o db).
Proof.
  destruct c as [| | |event];
    [by exists Ignored|by exists (ErrParse SyntaxError)|by exists (ErrParse TypeError)|].
  destruct (decide (ev_Type event = Some "container")) as [Hty|Hty];
    [destruct (decide (ev_Action event = Some "start")) as [Hact|Hact]|].
  - destruct (ev_Actor event) as [actor|] eqn:Hactor.
    + destruct (ID actor) as [id|] eqn:Hid.
      * destruct (decide (id = "")) as [->|Hne].
        -- exists WarnNoContainerId. intros db.
           unfold on_data, try_catch, handle_event, bind, parse_event, ret.
           rewrite Hty, Hact, Hactor, Hid. by rewrite !bool_decide_eq_true_2.
        -- assert (is_start_for (ChunkEvent event) id) as Hstart
             by (exists event, actor; done).
           destruct (inspect id) as [info|e] eqn:Hinspect.
           ++ destruct (register_container_shape info) as [o Ho].
              exists o. intros db.
              by rewrite (on_data_start _ _ _ _ Hstart), Hinspect.
           ++ exists (ErrInspect id e). intros db.
              by rewrite (on_data_start _ _ _ _ Hstart), Hinspect.
      * exists WarnNoContainerId. intros db.
        unfold on_data, try_catch, handle_event, bind, parse_event, ret.
        rewrite Hty, Hact, Hactor, Hid. by rewrite !bool_decide_eq_true_2.
    + exists (ErrParse TypeError). intros db.
      unfold on_data, try_catch, handle_event, bind, parse_event, ret, throw.
      rewrite Hty, Hact, Hactor. by rewrite !bool_decide_eq_true_2.
  - exists Ignored. intros db.
    unfold on_data, try_catch, handle_event, bind, parse_event, ret.
    rewrite (bool_decide_eq_false_2 (ev_Action event = _)) by done.
    by rewrite andb_false_r.
  - exists Ignored. intros db.
    unfold on_data, try_catch, handle_event, bind, parse_event, ret.
    by rewrite (bool_decide_eq_false_2 (ev_Type event = _)) by done.
Qed.

(** X1.  Which record an event registers, or which error ends it, does
    not depend on what the table holds.  (The handler reads the table
    only after [db.set], for the debug dump of line 92, and that dump
    goes to the console: it decides nothing.) *)
Theorem X1_outcome_ignores_table
    (inspect : string -> result ContainerInfo) (c : chunk) (db1 db2 : registry) :
  fst (on_data inspect c db1) = fst (on_data inspect c db2).
Proof. destruct (on_data_shape inspect c) as [o Ho]. by rewrite !Ho. Qed.

(** X2.  Processing the same event again, with the same inspection
    answer, changes nothing more: the listener is idempotent on the
    table. *)
Theorem X2_redelivery_idempotent
    (inspect : string -> result ContainerInfo) (c : chunk) (db : registry) :
  snd (on_data inspect c (snd (on_data inspect c db))) = snd (on_data inspect c db).
Proof.
  destruct (on_data_shape inspect c) as [o Ho]. rewrite !Ho. simpl.
  destruct o; simpl; try done. apply insert_insert_eq.
Qed.

(** X3.  Two events that do not both register the same name can be
    processed in either order: the resulting table is the same. *)
Theorem X3_distinct_names_commute
    (inspect1 inspect2 : string -> result ContainerInfo) (c1 c2 : chunk)
    (db : registry) :
  (forall r1 r2,
      fst (on_data inspect1 c1 db) = Ok (Registered r1) ->
      fst (on_data inspect2 c2 db) = Ok (Registered r2) ->
      containerName r1 <> containerName r2) ->
  snd (on_data inspect2 c2 (snd (on_data inspect1 c1 db)))
  = snd (on_data inspect1 c1 (snd (on_data inspect2 c2 db))).
Proof.
  destruct (on_data_shape inspect1 c1) as [o1 Ho1].
  destruct (on_data_shape inspect2 c2) as [o2 Ho2].
  rewrite !Ho1, !Ho2. simpl. intros Hnames.
  destruct o1 as [| | | |r1| |], o2 as [| | | |r2| |]; simpl; try done.
  apply insert_insert_ne. intros Heq. by apply (Hnames r1 r2).
Qed.

Lemma X3_distinct_names_commute_witness :
  snd (on_data (fun _ => Ok dotted_info) (start_event "c3")
               (snd (on_data inspect_web1 (start_event "c1") ∅)))
  = snd (on_data inspect_web1 (start_event "c1")
                 (snd (on_data (fun _ => Ok dotted_info) (start_event "c3") ∅))).
Proof.
  apply (X3_distinct_names_commute inspect_web1 (fun _ => Ok dotted_info)).
  intros r1 r2 H1 H2. vm_compute in H1, H2.
  injection H1 as <-. injection H2 as <-. discriminate.
Defined.

(** X4.  An event touches at most the entry of the name it registers:
    every other entry of the table, present or absent, is left as it
    was. *)
Theorem X4_other_entries_untouched
    (inspect : string -> result ContainerInfo) (c : chunk)
    (db db' : registry) (o : discovery_outcome) (name : string) :
  on_data inspect c db = (Ok o, db') ->
  (forall r, o = Registered r -> containerName r <> name) ->
  db' !! name = db !! name.
Proof.
  destruct (on_data_shape inspect c) as [o' Ho]. rewrite Ho.
  intros [= <- <-] Hother.
  destruct o'; simpl; try done.
  apply lookup_insert_ne. by apply Hother.
Qed.

Lemma X4_other_entries_untouched_witness :
  on_data (fun _ => Ok dotted_info) (start_event "c3") {[ "web1" := web1_record ]}
  = (Ok (Registered (mkRecord "shop.api" "10.0.0.7" (JsNumber.Num 8080) "http://10.0.0.7:8080")),
     <["shop.api" := mkRecord "shop.api" "10.0.0.7" (JsNumber.Num 8080) "http://10.0.0.7:8080"]>
       {[ "web1" := web1_record ]})
  /\ (<["shop.api" := mkRecord "shop.api" "10.0.0.7" (JsNumber.Num 8080) "http://10.0.0.7:8080"]>
        ({[ "web1" := web1_record ]} : registry)) !! "web1"
     = ({[ "web1" := web1_record ]} : registry) !! "web1".
Proof.
  assert (on_data (fun _ => Ok dotted_info) (start_event "c3") {[ "web1" := web1_record ]}
          = (Ok (Registered (mkRecord "shop.api" "10.0.0.7" (JsNumber.Num 8080) "http://10.0.0.7:8080")),
             <["shop.api" := mkRecord "shop.api" "10.0.0.7" (JsNumber.Num 8080) "http://10.0.0.7:8080"]>
               {[ "web1" := web1_record ]})) as Hrun by (vm_compute; reflexivity).
  split; [exact Hrun|].
  apply (X4_other_entries_untouched _ _ _ _ _ "web1" Hrun).
  intros r [= <-]. discriminate.
Defined.

(** X5.  In a table built by discovery every entry is filed under its
    own [containerName], and carries a non-empty [ipAddress] and a
    non-zero [defaultPort]. *)
Theorem X5_entries_consistent (db : registry) (name : string) (r : ServiceRecord) :
  discovered db ->
  db !! name = Some r ->
  containerName r = name /\ ipAddress r <> ""
  /\ defaultPort r <> JsNumber.Num 0 /\ defaultPort r <> JsNumber.NaN.
Proof.
  intros Hdb. revert name r.
  induction Hdb as [|inspect c db Hdb IH]; intros name r Hlookup.
  - by rewrite lookup_empty in Hlookup.
  - destruct (on_data_inv inspect c db)
      as [(id & info & r' & _ & _ & Hbuilt & Heq)|(o & _ & Heq)];
      rewrite Heq in Hlookup; simpl in Hlookup; [|by apply IH].
    destruct (decide (containerName r' = name)) as [<-|Hne].
    + rewrite lookup_insert_eq in Hlookup. injection Hlookup as <-.
      destruct Hbuilt as (_ & Hip & _ & Hnz & _).
      split; [done|]. split.
      * apply truthy_nonempty. by apply (select_ipAddress_truthy info).
      * split; intros Hport; by rewrite Hport in Hnz.
    + rewrite lookup_insert_ne in Hlookup by done. by apply IH.
Qed.

Lemma X5_entries_consistent_witness :
  discovered (snd (on_data inspect_web1 (start_event "c1") ∅))
  /\ snd (on_data inspect_web1 (start_event "c1") ∅) !! "web1" = Some web1_record
  /\ containerName web1_record = "web1".
Proof.
  assert (discovered (snd (on_data inspect_web1 (start_event "c1") ∅))) as Hdb
    by (apply discovered_data, discovered_empty).
  assert (snd (on_data inspect_web1 (start_event "c1") ∅) !! "web1" = Some web1_record)
    as Hlookup by (vm_compute; reflexivity).
  split; [exact Hdb|]. split; [exact Hlookup|].
  exact (proj1 (X5_entries_consistent _ _ _ Hdb Hlookup)).
Defined.

(* ===================================================================== *)
(** ** Port selection beyond the claims *)
(* ===================================================================== *)

Lemma declares_filter_tcp (ports : list string) :
  declares (List.filter (JsString.endsWith "/tcp") ports) "80/tcp"
  = declares ports "80/tcp".
Proof.
  unfold declares. induction ports as [|k ports IH]; [done|].
  cbn [List.filter existsb].
  destruct (JsString.endsWith "/tcp" k) eqn:Hk; cbn [existsb]; rewrite IH; [done|].
  destruct (String.eqb_spec "80/tcp" k) as [<-|Hne]; [discriminate Hk|done].
Qed.

Lemma find_filter_tcp (ports : list string) :
  find (JsString.endsWith "/tcp") (List.filter (JsString.endsWith "/tcp") ports)
  = find (JsString.endsWith "/tcp") ports.
Proof.
  induction ports as [|k ports IH]; [done|].
  cbn [List.filter find].
  destruct (JsString.endsWith "/tcp" k) eqn:Hk; [|done].
  cbn [find]. by rewrite Hk.
Qed.

(** X6.  Keys that do not end in ["/tcp"] (UDP and SCTP ports, anything
    else) play no part: wherever they stand among the exposed ports, the
    container is registered, or refused, exactly as if they were not
    declared. *)
Theorem X6_non_tcp_keys_ignored (info : ContainerInfo) (db : registry) :
  register_container info db
  = register_container
      (mkInfo (Name info) (Networks info)
              (Some (List.filter (JsString.endsWith "/tcp")
                                 (default [] (ExposedPorts info)))))
      db.
Proof.
  assert (select_defaultPort
            (mkInfo (Name info) (Networks info)
                    (Some (List.filter (JsString.endsWith "/tcp")
                                       (default [] (ExposedPorts info)))))
          = select_defaultPort info) as Hport.
  { unfold select_defaultPort. cbn [ExposedPorts default from_option id].
    by rewrite declares_filter_tcp, find_filter_tcp. }
  unfold register_container. by rewrite Hport.
Qed.

(** X7.  Only the first key ending in ["/tcp"] is ever read: when 80 is
    not declared and that first key has no number in front of its ['/'],
    or the number 0, the container is not registered and the table stays
    as it was, even if a later key names a usable port. *)
Theorem X7_first_tcp_key_decides
    (inspect : string -> result ContainerInfo) (c : chunk) (id : string)
    (info : ContainerInfo) (net ip : string)
    (others : list (string * EndpointSettings)) (db : registry)
    (before after : list string) (portKey : string) :
  is_start_for c id ->
  inspect id = Ok info ->
  Networks info = Some ((net, mkEndpoint ip) :: others) ->
  ip <> "" ->
  default [] (ExposedPorts info) = (before ++ portKey :: after)%list ->
  ~ In "80/tcp" (default [] (ExposedPorts info)) ->
  Forall (fun k => JsString.endsWith "/tcp" k = false) before ->
  JsString.endsWith "/tcp" portKey = true ->
  JsNumber.parseInt10 (JsString.split_head "/" portKey) = JsNumber.NaN
  \/ JsNumber.parseInt10 (JsString.split_head "/" portKey) = JsNumber.Num 0 ->
  on_data inspect c db = (Ok (ErrNoPort (derive_containerName info)), db).
Proof.
  intros Hstart Hinspect Hnets Hip Hports Hno80 Hbefore Hkey Hparse.
  rewrite (on_data_start _ _ _ _ Hstart), Hinspect.
  assert (select_ipAddress info = Some ip) as Hsel
    by exact (select_ipAddress_first info net (mkEndpoint ip) others Hnets Hip).
  assert (select_defaultPort info
          = Some (JsNumber.parseInt10 (JsString.split_head "/" portKey))) as Hport.
  { unfold select_defaultPort. apply declares_not_In in Hno80 as ->.
    by rewrite Hports, (find_first_tcp _ _ _ Hbefore Hkey). }
  unfold register_container. rewrite Hsel, Hport.
  by destruct Hparse as [-> | ->].
Qed.

Lemma X7_first_tcp_key_decides_witness :
  default [] (ExposedPorts zero_port_info) = (["53/udp"] ++ "0/tcp" :: ["8080/tcp"])%list
  /\ on_data (fun _ => Ok zero_port_info) (start_event "c1") ∅
     = (Ok (ErrNoPort "web1"), ∅).
Proof.
  split; [reflexivity|].
  apply (X7_first_tcp_key_decides (fun _ => Ok zero_port_info) (start_event "c1") "c1"
           zero_port_info "bridge" "10.0.0.5" [] ∅ ["53/udp"] ["8080/tcp"] "0/tcp").
  - apply start_event_is_start. discriminate.
  - reflexivity.
  - reflexivity.
  - discriminate.
  - reflexivity.
  - simpl. intros [H|[H|[H|[]]]]; discriminate.
  - repeat constructor.
  - reflexivity.
  - right. reflexivity.
Defined.

(* ===================================================================== *)
(** ** Routing beyond the claims *)
(* ===================================================================== *)

Lemma has_char_split_head (c : ascii) (s : string) :
  has_char c (JsString.split_head c s) = false.
Proof.
  induction s as [|a s IH]; simpl; [done|].
  destruct (Ascii.eqb a c) eqn:Ha; simpl; [done|]. by rewrite Ha.
Qed.

Lemma split_head_ne_dotted (hostname name : string) :
  has_char "." name = true -> name <> JsString.split_head "." hostname.
Proof. intros Hdot ->. by rewrite has_char_split_head in Hdot. Qed.

(** X8.  A container whose name contains a dot is registered, but no
    request can reach it: the router only ever looks up a key without a
    dot, so the answer to every HTTP request and every upgrade is the
    same after that registration as before it. *)
Theorem X8_dotted_name_unroutable
    (inspect : string -> result ContainerInfo) (c : chunk)
    (db db' : registry) (r : ServiceRecord) :
  on_data inspect c db = (Ok (Registered r), db') ->
  has_char "." (containerName r) = true ->
  (forall proxy_web hostname,
      fst (reverseProxyApp proxy_web hostname db')
      = fst (reverseProxyApp proxy_web hostname db))
  /\ (forall proxy_ws host,
         fst (on_upgrade proxy_ws host db') = fst (on_upgrade proxy_ws host db)).
Proof.
  intros Hrun Hdot. apply on_data_registered in Hrun as [-> _]. split.
  - intros proxy_web [hostname|]; [|done].
    rewrite !reverseProxyApp_eq.
    rewrite lookup_insert_ne by by apply split_head_ne_dotted.
    destruct (db !! _) as [r'|]; [|done].
    destruct (JsString.truthy (target r')); [|done].
    by destruct (proxy_web (target r')).
  - intros proxy_ws [[|a hostname]|]; [done| |done].
    rewrite !on_upgrade_eq by done.
    rewrite lookup_insert_ne by by apply split_head_ne_dotted.
    destruct (db !! _) as [r'|]; [|done].
    destruct (JsString.truthy (target r')); [|done].
    by destruct (proxy_ws (target r')).
Qed.

Lemma X8_dotted_name_unroutable_witness :
  has_char "." "shop.api" = true
  /\ fst (reverseProxyApp refused_backend (Some "shop.api.localhost")
            (<["shop.api" := mkRecord "shop.api" "10.0.0.7" (JsNumber.Num 8080) "http://10.0.0.7:8080"]>
               {[ "web1" := web1_record ]}))
     = fst (reverseProxyApp refused_backend (Some "shop.api.localhost")
              {[ "web1" := web1_record ]}).
Proof.
  assert (on_data (fun _ => Ok dotted_info) (start_event "c3") {[ "web1" := web1_record ]}
          = (Ok (Registered (mkRecord "shop.api" "10.0.0.7" (JsNumber.Num 8080) "http://10.0.0.7:8080")),
             <["shop.api" := mkRecord "shop.api" "10.0.0.7" (JsNumber.Num 8080) "http://10.0.0.7:8080"]>
               {[ "web1" := web1_record ]})) as Hrun by (vm_compute; reflexivity).
  split; [reflexivity|].
  exact (proj1 (X8_dotted_name_unroutable _ _ _ _ _ Hrun eq_refl)
           refused_backend (Some "shop.api.localhost")).
Defined.

(** X9.  For one host string and one table the middleware and the
    upgrade listener resolve alike: the target the first forwards to is
    the target the second tunnels to, and when one does not reach a
    backend neither does the other. *)
Theorem X9_http_and_upgrade_agree
    (proxy_web : string -> proxy_web_result) (proxy_ws : string -> proxy_ws_result)
    (hostname : string) (db : registry) :
  hostname <> "" ->
  exists exh exu,
    reverseProxyApp proxy_web (Some hostname) db = (Ok exh, db)
    /\ on_upgrade proxy_ws (Some hostname) db = (Ok exu, db)
    /\ forwarded_to exh = upgraded_to exu.
Proof.
  intros Hne. rewrite reverseProxyApp_eq, on_upgrade_eq by done.
  destruct (db !! _) as [r|]; [|by eexists _, _].
  destruct (JsString.truthy (target r)); [|by eexists _, _].
  destruct (proxy_web (target r)), (proxy_ws (target r)); by eexists _, _.
Qed.

Lemma X9_http_and_upgrade_agree_witness :
  exists exh exu,
    reverseProxyApp refused_backend (Some "web1.localhost") {[ "web1" := web1_record ]}
    = (Ok exh, {[ "web1" := web1_record ]})
    /\ on_upgrade refused_tunnel (Some "web1.localhost") {[ "web1" := web1_record ]}
       = (Ok exu, {[ "web1" := web1_record ]})
    /\ forwarded_to exh = upgraded_to exu.
Proof.
  apply (X9_http_and_upgrade_agree refused_backend refused_tunnel "web1.localhost").
  discriminate.
Defined.

(* ===================================================================== *)
(** ** The table along a run *)
(* ===================================================================== *)

Lemma step_lookup_origin (i : core_input) (db : registry) (name : string) (r : ServiceRecord) :
  step i db !! name = Some r ->
  db !! name = Some r
  \/ exists inspect c id info,
       i = DockerData inspect c /\ is_start_for c id /\ inspect id = Ok info
       /\ built_from info r /\ containerName r = name.
Proof.
  destruct i as [inspect c|proxy_web hostname|proxy_ws host]; simpl.
  - destruct (on_data_inv inspect c db)
      as [(id & info & r' & Hstart & Hinspect & Hbuilt & ->)|(o & _ & ->)];
      simpl; [|by left].
    destruct (decide (containerName r' = name)) as [<-|Hne].
    + rewrite lookup_insert_eq. intros [= <-]. right. by exists inspect, c, id, info.
    + rewrite lookup_insert_ne by done. by left.
  - rewrite reverseProxyApp_reads. by left.
  - rewrite on_upgrade_reads. by left.
Qed.

Lemma run_lookup_origin (inputs : list core_input) :
  forall (db : registry) (name : string) (r : ServiceRecord),
    run inputs db !! name = Some r ->
    db !! name = Some r
    \/ exists inspect c id info,
         In (DockerData inspect c) inputs /\ is_start_for c id /\ inspect id = Ok info
         /\ built_from info r /\ containerName r = name.
Proof.
  induction inputs as [|i inputs IH]; intros db name r Hlookup; [by left|].
  simpl in Hlookup. destruct (IH _ _ _ Hlookup) as [Hstep|Hlater].
  - destruct (step_lookup_origin _ _ _ _ Hstep)
      as [Hdb|(inspect & c & id & info & -> & Hrest)]; [by left|].
    right. exists inspect, c, id, info. split; [by left|done].
  - right. destruct Hlater as (inspect & c & id & info & Hin & Hrest).
    exists inspect, c, id, info. split; [by right|done].
Qed.

(** X10.  Whatever the core is fed from an empty table, every entry of
    the table was put there by a container-start event of the run whose
    inspection succeeded, and holds the record built from that
    inspection, under that record's name. *)
Theorem X10_entries_come_from_start_events
    (inputs : list core_input) (name : string) (r : ServiceRecord) :
  run inputs ∅ !! name = Some r ->
  exists inspect c id info,
    In (DockerData inspect c) inputs
    /\ is_start_for c id /\ inspect id = Ok info
    /\ built_from info r /\ containerName r = name.
Proof.
  intros Hlookup. destruct (run_lookup_origin _ _ _ _ Hlookup) as [Hempty|Hfrom]; [|done].
  by rewrite lookup_empty in Hempty.
Qed.

Lemma X10_entries_come_from_start_events_witness :
  run [HttpRequest refused_backend (Some "web1.localhost");
       DockerData inspect_web1 (start_event "c1")] ∅ !! "web1" = Some web1_record
  /\ exists inspect c id info,
       In (DockerData inspect c)
          [HttpRequest refused_backend (Some "web1.localhost");
           DockerData inspect_web1 (start_event "c1")]
       /\ is_start_for c id /\ inspect id = Ok info
       /\ built_from info web1_record /\ containerName web1_record = "web1".
Proof.
  assert (run [HttpRequest refused_backend (Some "web1.localhost");
               DockerData inspect_web1 (start_event "c1")] ∅ !! "web1"
          = Some web1_record) as Hlookup by (vm_compute; reflexivity).
  split; [exact Hlookup|].
  exact (X10_entries_come_from_start_events _ _ _ Hlookup).
Defined.

Lemma step_size (i : core_input) (db : registry) :
  (size (step i db) <= size db + (if is_docker_data i then 1 else 0))%nat.
Proof.
  destruct i as [inspect c|proxy_web hostname|proxy_ws host]; simpl.
  - destruct (on_data_unchanged_or_registered inspect c db) as [->|(r & ->)]; [lia|].
    simpl. rewrite map_size_insert. destruct (db !! containerName r); simpl; lia.
  - rewrite reverseProxyApp_reads. lia.
  - rewrite on_upgrade_reads. lia.
Qed.

(** X11.  The table grows by at most one entry per chunk of the event
    stream, and never through requests or upgrades: its size is bounded
    by its initial size plus the number of chunks processed. *)
Theorem X11_table_size_bounded (inputs : list core_input) (db : registry) :
  (size (run inputs db)
   <= size db + length (List.filter is_docker_data inputs))%nat.
Proof.
  revert db. induction inputs as [|i inputs IH]; intros db; [simpl; lia|].
  simpl run. specialize (IH (step i db)). pose proof (step_size i db) as Hstep.
  unfold run in *. cbn [fold_left List.filter].
  destruct (is_docker_data i); simpl in *; lia.
Qed.

(* ===================================================================== *)
(** ** Management API *)
(* ===================================================================== *)

Lemma scan_tags_In (ref : string) (tags : list string) :
  scan_tags ref tags = true <-> In ref tags.
Proof.
  induction tags as [|systemTag tags IH]; simpl; [split; [discriminate|tauto]|].
  destruct (String.eqb_spec systemTag ref) as [->|Hne].
  - split; [by left|done].
  - rewrite IH. split; [by right|]. by intros [?|?].
Qed.

Lemma scan_images_listed (ref : string) (images : list SystemImage) :
  scan_images ref images = true <-> image_listed ref images.
Proof.
  unfold image_listed. induction images as [|systemImage images IH]; simpl.
  - split; [discriminate|]. by intros (? & ? & [] & _).
  - destruct (RepoTags systemImage) as [tags|] eqn:Htags.
    + destruct (scan_tags ref tags) eqn:Hscan.
      * split; [|done]. intros _. exists systemImage, tags.
        split; [by left|]. split; [done|]. by apply scan_tags_In.
      * rewrite IH. split.
        -- intros (img & tags' & Hin & Hrest). exists img, tags'. split; [by right|done].
        -- intros (img & tags' & [<-|Hin] & Htags' & Href).
           ++ rewrite Htags in Htags'. injection Htags' as <-.
              apply scan_tags_In in Href. congruence.
           ++ by exists img, tags'.
    + rewrite IH. split.
      * intros (img & tags' & Hin & Hrest). exists img, tags'. split; [by right|done].
      * intros (img & tags' & [<-|Hin] & Htags' & Href); [congruence|].
        by exists img, tags'.
Qed.

(** X12.  The scan of the local images finds [image:tag] exactly when
    some listed image with a non-null [RepoTags] carries that very tag;
    images whose [RepoTags] is [null] or empty are passed over, and the
    tag is compared as a whole, not by its repository part. *)
Theorem X12_scan_finds_listed_image (ref : string) (images : list SystemImage) :
  (scan_images ref images = true <-> image_listed ref images)
  /\ scan_images ref (mkImage None :: images) = scan_images ref images
  /\ scan_images ref (mkImage (Some []) :: images) = scan_images ref images
  /\ (forall tags, ~ In ref tags ->
                   scan_images ref (mkImage (Some tags) :: images) = scan_images ref images).
Proof.
  split; [apply scan_images_listed|]. split; [done|]. split; [done|].
  intros tags Hnot. simpl.
  destruct (scan_tags ref tags) eqn:Hscan; [|done].
  apply scan_tags_In in Hscan. by destruct Hnot.
Qed.

Lemma X12_scan_finds_listed_image_witness :
  image_listed "nginx:latest" [mkImage None; mkImage (Some ["redis:7"; "nginx:latest"])]
  /\ scan_images "nginx:latest" [mkImage None; mkImage (Some ["redis:7"; "nginx:latest"])]
     = true.
Proof.
  assert (image_listed "nginx:latest"
            [mkImage None; mkImage (Some ["redis:7"; "nginx:latest"])]) as Hlisted.
  { exists (mkImage (Some ["redis:7"; "nginx:latest"])), ["redis:7"; "nginx:latest"].
    simpl. auto. }
  split; [exact Hlisted|].
  exact (proj2 (proj1 (X12_scan_finds_listed_image _ _)) Hlisted).
Defined.

Ltac docker_cases :=
  repeat (simpl;
          match goal with
          | |- context [docker_listImages ?d] =>
              destruct (docker_listImages d) as [?images|?e] eqn:?
          | |- context [scan_images ?r ?i] =>
              destruct (scan_images r i) eqn:?
          | |- context [docker_pull ?d ?r] =>
              destruct (docker_pull d r) as [[]|?e] eqn:?
          | |- context [modem_followProgress ?d ?r] =>
              destruct (modem_followProgress d r) as [[]|?e] eqn:?
          | |- context [docker_createContainer ?d ?o] =>
              destruct (docker_createContainer d o) as [?id|?e] eqn:?
          | |- context [container_start ?d ?i] =>
              destruct (container_start d i) as [[]|?e] eqn:?
          | |- context [container_inspect ?d ?i] =>
              destruct (container_inspect d i) as [?info|?e] eqn:?
          end).

(** X13.  When the image is there, or its pull goes through, and the
    container is created, started and inspected, the API answers 200 with
    [container] set to the container's name, without its leading ['/'],
    followed by [.localhost]; it pulls only when the image was not found,
    and always creates the container with [AutoRemove] on and no TTY. *)
Theorem X13_container_started
    (docker : DockerApi) (b : ContainerRequest) (images : list SystemImage)
    (containerId : string) (info : ContainerInfo) :
  docker_listImages docker = Ok images ->
  (scan_images (image_ref b) images = true
   \/ (docker_pull docker (image_ref b) = Ok tt
       /\ modem_followProgress docker (image_ref b) = Ok tt)) ->
  docker_createContainer docker (mkCreate (image_ref b) false true) = Ok containerId ->
  container_start docker containerId = Ok tt ->
  container_inspect docker containerId = Ok info ->
  post_container docker (Some b)
  = (Ok (mkResponse 200 "application/json"
           (JsonBody [("status", "success");
                      ("message", "Container started");
                      ("container", derive_containerName info ++ ".localhost")])),
     (ListImages
        :: (if scan_images (image_ref b) images then []
            else [Pull (image_ref b); FollowProgress (image_ref b)])
        ++ [CreateContainer (mkCreate (image_ref b) false true);
            Start containerId; Inspect containerId])%list).
Proof.
  intros Hlist Himage Hcreate Hstart Hinspect.
  unfold post_container, dcatch, dbind, call, ensure_image, dret.
  remember (image_ref b) as ref eqn:Href. cbv zeta. rewrite Hlist.
  destruct (scan_images ref images) eqn:Hscan; simpl.
  - by rewrite Hcreate, Hstart, Hinspect.
  - destruct Himage as [Hfound|[Hpull Hfollow]]; [discriminate|].
    rewrite Hpull, Hfollow. simpl. by rewrite Hcreate, Hstart, Hinspect.
Qed.

Lemma X13_container_started_witness :
  post_container sample_docker (Some nginx_request)
  = (Ok (mkResponse 200 "application/json"
           (JsonBody [("status", "success");
                      ("message", "Container started");
                      ("container", "web1.localhost")])),
     [ListImages; CreateContainer (mkCreate "nginx:latest" false true);
      Start "c1"; Inspect "c1"]).
Proof.
  exact (X13_container_started sample_docker nginx_request
           [mkImage None; mkImage (Some ["redis:7"; "nginx:latest"])] "c1" web1_info
           eq_refl (or_introl eq_refl) eq_refl eq_refl eq_refl).
Defined.

(** X14.  Whatever the daemon does, a request with a body is answered:
    either with the 200 success answer for the name of a container the
    daemon created and inspected, or with status 500 and the JSON body
    [{status: "error", message: "Error starting container"}].  The
    handler stops at the first call that fails: every call before the
    last one succeeded, and the answer is the success answer exactly when
    all calls succeeded. *)
Theorem X14_always_answers_and_stops_at_failure
    (docker : DockerApi) (b : ContainerRequest) :
  exists resp calls,
    post_container docker (Some b) = (Ok resp, calls)
    /\ Forall (fun c => call_ok docker c = true) (removelast calls)
    /\ (forallb (call_ok docker) calls = true ->
        exists containerId info,
          docker_createContainer docker (mkCreate (image_ref b) false true)
          = Ok containerId
          /\ container_inspect docker containerId = Ok info
          /\ resp = started_response (derive_containerName info))
    /\ (forallb (call_ok docker) calls = false -> resp = start_failed_response).
Proof.
  unfold post_container, dcatch, dbind, call, ensure_image, dret.
  remember (image_ref b) as ref eqn:Href. cbv zeta.
  docker_cases;
    (eexists _, _; split; [reflexivity|]; split;
     [simpl; repeat constructor; simpl;
      repeat match goal with H : _ = _ |- _ => rewrite H end; reflexivity|];
     split; simpl;
     repeat match goal with H : _ = _ |- _ => rewrite H end; simpl;
     try discriminate; try reflexivity; try (intros _; eauto)).
Qed.

Lemma X14_always_answers_and_stops_at_failure_witness :
  post_container offline_docker (Some nginx_request)
  = (Ok start_failed_response, [ListImages; Pull "nginx:latest"])
  /\ exists resp calls,
       post_container offline_docker (Some nginx_request) = (Ok resp, calls)
       /\ Forall (fun c => call_ok offline_docker c = true) (removelast calls)
       /\ (forallb (call_ok offline_docker) calls = true ->
           exists containerId info,
             docker_createContainer offline_docker
               (mkCreate (image_ref nginx_request) false true) = Ok containerId
             /\ container_inspect offline_docker containerId = Ok info
             /\ resp = started_response (derive_containerName info))
       /\ (forallb (call_ok offline_docker) calls = false ->
           resp = start_failed_response).
Proof.
  split; [reflexivity|].
  exact (X14_always_answers_and_stops_at_failure offline_docker nginx_request).
Defined.

(** X15.  No container is created unless the image was found locally or
    was pulled to the end, and then it is created from [image:tag] with
    [AutoRemove] on; a container is only started if it is the one the
    daemon just created. *)
Theorem X15_create_only_with_image
    (docker : DockerApi) (b : ContainerRequest) (opts : CreateOptions) :
  In (CreateContainer opts) (snd (post_container docker (Some b))) ->
  opts = mkCreate (image_ref b) false true
  /\ (exists images,
         docker_listImages docker = Ok images
         /\ (image_listed (image_ref b) images
             \/ (docker_pull docker (image_ref b) = Ok tt
                 /\ modem_followProgress docker (image_ref b) = Ok tt)))
  /\ (forall containerId,
         In (Start containerId) (snd (post_container docker (Some b))) ->
         docker_createContainer docker opts = Ok containerId).
Proof.
  unfold post_container, dcatch, dbind, call, ensure_image, dret.
  remember (image_ref b) as ref eqn:Href. cbv zeta.
  docker_cases; intros Hin; simpl in Hin;
    repeat (destruct Hin as [Hin|Hin]; try discriminate Hin); try done;
    injection Hin as <-;
    (split; [done|]; split;
     [eexists; split; [done|];
      first [left; apply (proj1 (scan_images_listed _ _)); congruence
            | right; split; congruence]
     |intros containerId Hstart; simpl in Hstart;
      repeat (destruct Hstart as [Hstart|Hstart]; try discriminate Hstart); try done;
      injection Hstart as <-; congruence]).
Qed.

Lemma X15_create_only_with_image_witness :
  In (CreateContainer (mkCreate "nginx:latest" false true))
     (snd (post_container sample_docker (Some nginx_request)))
  /\ exists images,
       docker_listImages sample_docker = Ok images
       /\ (image_listed (image_ref nginx_request) images
           \/ (docker_pull sample_docker (image_ref nginx_request) = Ok tt
               /\ modem_followProgress sample_docker (image_ref nginx_request) = Ok tt)).
Proof.
  assert (In (CreateContainer (mkCreate "nginx:latest" false true))
             (snd (post_container sample_docker (Some nginx_request)))) as Hin
    by (simpl; auto).
  split; [exact Hin|].
  exact (proj1 (proj2 (X15_create_only_with_image _ _ _ Hin))).
Defined.

(** X16.  The image is pulled only when the scan did not find it: a pull
    in the trace is a pull of [image:tag], made after a listing in which
    no image carried that tag; and the progress of a pull is followed
    only if the pull itself was accepted. *)
Theorem X16_pull_only_when_absent
    (docker : DockerApi) (b : ContainerRequest) (ref : string) :
  In (Pull ref) (snd (post_container docker (Some b))) ->
  ref = image_ref b
  /\ (exists images,
         docker_listImages docker = Ok images /\ ~ image_listed (image_ref b) images)
  /\ (In (FollowProgress ref) (snd (post_container docker (Some b))) ->
      docker_pull docker ref = Ok tt).
Proof.
  unfold post_container, dcatch, dbind, call, ensure_image, dret.
  remember (image_ref b) as ref' eqn:Href. cbv zeta.
  docker_cases; intros Hin; simpl in Hin;
    repeat (destruct Hin as [Hin|Hin]; try discriminate Hin); try done;
    injection Hin as <-;
    (split; [done|]; split;
     [eexists; split; [done|]; rewrite <- scan_images_listed; congruence
     |intros Hfollow; simpl in Hfollow;
      repeat (destruct Hfollow as [Hfollow|Hfollow]; try discriminate Hfollow);
      first [done | congruence]]).
Qed.

Lemma X16_pull_only_when_absent_witness :
  In (Pull "nginx:latest") (snd (post_container offline_docker (Some nginx_request)))
  /\ exists images,
       docker_listImages offline_docker = Ok images
       /\ ~ image_listed (image_ref nginx_request) images.
Proof.
  assert (In (Pull "nginx:latest")
             (snd (post_container offline_docker (Some nginx_request)))) as Hin
    by (simpl; auto).
  split; [exact Hin|].
  exact (proj1 (proj2 (X16_pull_only_when_absent _ _ _ Hin))).
Defined.

(* ===================================================================== *)
(** ** From the management API to the router *)
(* ===================================================================== *)

Lemma derive_containerName_Name info info' :
  Name info' = Name info -> derive_containerName info' = derive_containerName info.
Proof. intros H. unfold derive_containerName. by rewrite H. Qed.

(** X17.  The host name a successful [POST /container] returns is the
    name of the container it created followed by [.localhost]; once the
    start event of that container has been registered by discovery, and
    provided the name has no dot, a request for the returned host is
    forwarded to the registered target of that container. *)
Theorem X17_returned_host_is_routed
    (docker : DockerApi) (b : ContainerRequest) (host : string)
    (calls : list docker_call) :
  post_container docker (Some b)
  = (Ok (res_json 200 [("status", "success");
                       ("message", "Container started");
                       ("container", host)]),
     calls) ->
  exists containerId info,
    docker_createContainer docker (mkCreate (image_ref b) false true) = Ok containerId
    /\ container_inspect docker containerId = Ok info
    /\ host = derive_containerName info ++ ".localhost"
    /\ forall (inspect : string -> result ContainerInfo) (c : chunk)
              (info' : ContainerInfo) (db db' : registry) (r : ServiceRecord)
              (proxy_web : string -> proxy_web_result),
         is_start_for c containerId ->
         inspect containerId = Ok info' ->
         Name info' = Name info ->
         on_data inspect c db = (Ok (Registered r), db') ->
         has_char "." (derive_containerName info) = false ->
         exists resp,
           reverseProxyApp proxy_web (Some host) db'
           = (Ok (mkExchange (Some (target r)) resp), db').
Proof.
  assert (forall containerId info,
             host = derive_containerName info ++ ".localhost" ->
             forall (inspect : string -> result ContainerInfo) (c : chunk)
                    (info' : ContainerInfo) (db db' : registry) (r : ServiceRecord)
                    (proxy_web : string -> proxy_web_result),
               is_start_for c containerId ->
               inspect containerId = Ok info' ->
               Name info' = Name info ->
               on_data inspect c db = (Ok (Registered r), db') ->
               has_char "." (derive_containerName info) = false ->
               exists resp,
                 reverseProxyApp proxy_web (Some host) db'
                 = (Ok (mkExchange (Some (target r)) resp), db')) as Hroute.
  { intros containerId info -> inspect c info' db db' r proxy_web
           Hstart Hinspect Hname Hrun Hdot.
    rewrite (on_data_start _ _ _ _ Hstart), Hinspect in Hrun.
    destruct (register_container_inv info' db)
      as [(r' & Hbuilt & Heq)|[(_ & Heq)|(_ & _ & Heq)]];
      rewrite Heq in Hrun; try discriminate.
    injection Hrun as -> <-.
    pose proof Hbuilt as (Hkey & _).
    rewrite (derive_containerName_Name _ _ Hname) in Hkey.
    rewrite reverseProxyApp_eq.
    change (".localhost") with (String "." "localhost").
    rewrite (split_head_app "." _ _ (split_head_no_char _ _ Hdot)).
    rewrite <- Hkey, lookup_insert_eq, (built_from_target_truthy _ _ Hbuilt).
    destruct (proxy_web (target r)); by eexists. }
  unfold post_container, dcatch, dbind, call, ensure_image, dret.
  remember (image_ref b) as ref eqn:Href. cbv zeta.
  docker_cases; intros Hrun; try discriminate Hrun;
    injection Hrun as <- _; eexists _, _;
    (split; [reflexivity|]); (split; [eassumption|]); (split; [reflexivity|]);
    by eapply Hroute.
Qed.

Lemma X17_returned_host_is_routed_witness :
  post_container sample_docker (Some nginx_request)
  = (Ok (res_json 200 [("status", "success");
                       ("message", "Container started");
                       ("container", "web1.localhost")]),
     [ListImages; CreateContainer (mkCreate "nginx:latest" false true);
      Start "c1"; Inspect "c1"])
  /\ exists containerId info,
       docker_createContainer sample_docker (mkCreate (image_ref nginx_request) false true)
       = Ok containerId
       /\ container_inspect sample_docker containerId = Ok info
       /\ "web1.localhost" = derive_containerName info ++ ".localhost".
Proof.
  assert (post_container sample_docker (Some nginx_request)
          = (Ok (res_json 200 [("status", "success");
                               ("message", "Container started");
                               ("container", "web1.localhost")]),
             [ListImages; CreateContainer (mkCreate "nginx:latest" false true);
              Start "c1"; Inspect "c1"])) as Hrun by reflexivity.
  split; [exact Hrun|].
  destruct (X17_returned_host_is_routed _ _ _ _ Hrun)
    as (containerId & info & Hcreate & Hinspect & Hhost & _).
  by exists containerId, info.
Defined.
